(** * Verbex Python SDK: wire normalisation, response envelopes, client
      operations and the conformance harness

    A shallow embedding of [sdk/python/verbex_sdk.py] and of the run loop of
    [sdk/python/test_harness.py], with the properties the specification
    states about them.

    Modelling conventions.
    - Python values that travel through the SDK (decoded JSON, request
      bodies, envelope fields) are the inductive type [value].
    - A [str] is a Rocq [string].  In [_to_camel_case_keys] the characters
      [A]..[Z] are the cased ones: [str.lower] on a one-character string maps
      them to [a]..[z] and leaves every other character as it is, which is
      what the interpreter does on ASCII text.
    - The interpreter's own text operations (indexing, slicing, the
      Unicode-aware [str.lower], [str]) are the fields of [builtins];
      [_to_camel_case_keys_with] is the normaliser over any of them, and the
      properties of the key rewrite and of the [id] alias are proved for all
      of them.
    - Recursion is structural: the interpreter's recursion limit, which
      stops the normaliser on very deeply nested values, is not modelled.
    - A [dict] is an association list in insertion order; [dict_set] is the
      assignment [d[k] = v] (an existing key keeps its position).
    - A [float] carries its numeric class and the text the interpreter
      prints for it, since float formatting is the interpreter's own. *)

From Stdlib Require Import List String Ascii ZArith QArith Bool Lia.
From Stdlib Require Import DecimalString.
Import ListNotations.
Open Scope string_scope.
Open Scope Z_scope.

(* ================================================================== *)
(** ** Python values *)

Inductive float_class : Type :=
| FlNan
| FlInf (negative : bool)
| FlFinite (q : Q).

Record pyfloat : Type := mkFloat {
  fl_class : float_class;
  fl_repr : string
}.

Unset Elimination Schemes.
Inductive value : Type :=
| VNone
| VBool (b : bool)
| VInt (z : Z)
| VFloat (f : pyfloat)
| VStr (s : string)
| VList (items : list value)
| VDict (entries : list (string * value)).
Set Elimination Schemes.

Definition dict : Type := list (string * value).

(** Induction over [value] that reaches the elements of lists and the
    values of dicts. *)
Fixpoint value_ind (P : value -> Prop)
    (HNone : P VNone)
    (HBool : forall b, P (VBool b))
    (HInt : forall z, P (VInt z))
    (HFloat : forall f, P (VFloat f))
    (HStr : forall s, P (VStr s))
    (HList : forall l, Forall P l -> P (VList l))
    (HDict : forall d, Forall (fun kv => P (snd kv)) d -> P (VDict d))
    (v : value) {struct v} : P v :=
  let rec := value_ind P HNone HBool HInt HFloat HStr HList HDict in
  match v with
  | VNone => HNone
  | VBool b => HBool b
  | VInt z => HInt z
  | VFloat f => HFloat f
  | VStr s => HStr s
  | VList l =>
      HList l
        ((fix go (xs : list value) : Forall P xs :=
            match xs with
            | [] => Forall_nil P
            | x :: xs' => Forall_cons x (rec x) (go xs')
            end) l)
  | VDict d =>
      HDict d
        ((fix go (xs : list (string * value))
            : Forall (fun kv => P (snd kv)) xs :=
            match xs with
            | [] => Forall_nil _
            | kv :: xs' =>
                Forall_cons (P := fun kv => P (snd kv)) kv
                  (rec (snd kv)) (go xs')
            end) d)
  end.

(** Truth value of an object ([bool(x)]). *)
Definition float_truthy (f : pyfloat) : bool :=
  match fl_class f with
  | FlFinite q => negb (Qeq_bool q 0)
  | _ => true
  end.

Definition truthy (v : value) : bool :=
  match v with
  | VNone => false
  | VBool b => b
  | VInt z => negb (z =? 0)
  | VFloat f => float_truthy f
  | VStr s => negb (String.eqb s "")
  | VList l => match l with [] => false | _ => true end
  | VDict d => match d with [] => false | _ => true end
  end.

(** [a or b]. *)
Definition py_or (a b : value) : value := if truthy a then a else b.

(* ================================================================== *)
(** ** Dict operations *)

(** [d.get(k)] as an option; [None] when the key is absent. *)
Fixpoint dict_lookup (d : dict) (k : string) : option value :=
  match d with
  | [] => None
  | (k', v) :: rest => if String.eqb k' k then Some v else dict_lookup rest k
  end.

(** [k in d]. *)
Definition dict_mem (d : dict) (k : string) : bool :=
  match dict_lookup d k with Some _ => true | None => false end.

(** [d.get(k, default)]. *)
Definition dict_get_default (d : dict) (k : string) (default : value) : value :=
  match dict_lookup d k with Some v => v | None => default end.

(** [d.get(k)]. *)
Definition dict_get (d : dict) (k : string) : value :=
  dict_get_default d k VNone.

(** [d[k] = v]. *)
Fixpoint dict_set (d : dict) (k : string) (v : value) : dict :=
  match d with
  | [] => [(k, v)]
  | (k', v') :: rest =>
      if String.eqb k' k then (k', v) :: rest
      else (k', v') :: dict_set rest k v
  end.

Definition dict_keys (d : dict) : list string := map fst d.

(* ================================================================== *)
(** ** [str()] and [repr()] *)

Definition dquote : ascii := "034"%char.
Definition squote : ascii := "039"%char.
Definition backslash : ascii := "092"%char.

Fixpoint string_mem (c : ascii) (s : string) : bool :=
  match s with
  | EmptyString => false
  | String c' rest => Ascii.eqb c' c || string_mem c rest
  end.

Definition hex_digit (n : nat) : ascii :=
  nth n (list_ascii_of_string "0123456789abcdef") "0"%char.

Definition repr_char (quote c : ascii) : string :=
  let n := nat_of_ascii c in
  if Ascii.eqb c quote || Ascii.eqb c backslash then String backslash (String c "")
  else if Ascii.eqb c "009"%char then "\t"
  else if Ascii.eqb c "010"%char then "\n"
  else if Ascii.eqb c "013"%char then "\r"
  else if (n <? 32)%nat || (n =? 127)%nat then
    "\x" ++ String (hex_digit (n / 16)) (String (hex_digit (n mod 16)) "")
  else String c "".

Fixpoint repr_chars (quote : ascii) (s : string) : string :=
  match s with
  | EmptyString => ""
  | String c rest => repr_char quote c ++ repr_chars quote rest
  end.

(** [repr(s)] for a string: single quotes unless the text has a single
    quote and no double quote. *)
Definition str_repr (s : string) : string :=
  let quote :=
    if string_mem squote s && negb (string_mem dquote s) then dquote else squote in
  String quote (repr_chars quote s ++ String quote "").

Definition int_str (z : Z) : string := NilZero.string_of_int (Z.to_int z).

Fixpoint join (sep : string) (parts : list string) : string :=
  match parts with
  | [] => ""
  | [p] => p
  | p :: rest => p ++ sep ++ join sep rest
  end.

Fixpoint py_repr (v : value) : string :=
  match v with
  | VNone => "None"
  | VBool true => "True"
  | VBool false => "False"
  | VInt z => int_str z
  | VFloat f => fl_repr f
  | VStr s => str_repr s
  | VList l => "[" ++ join ", " (map py_repr l) ++ "]"
  | VDict d =>
      "{" ++ join ", " (map (fun kv => str_repr (fst kv) ++ ": " ++ py_repr (snd kv)) d)
          ++ "}"
  end.

(** [str(v)]. *)
Definition py_str (v : value) : string :=
  match v with
  | VStr s => s
  | _ => py_repr v
  end.

(* ================================================================== *)
(** ** Wire normaliser: [_to_camel_case_keys] *)

(** [c.lower()] for one character. *)
Definition lower_char (c : ascii) : ascii :=
  let n := nat_of_ascii c in
  if (65 <=? n)%nat && (n <=? 90)%nat then ascii_of_nat (n + 32) else c.

(** [key[0].lower() + key[1:] if key else key]. *)
Definition camel_key (key : string) : string :=
  match key with
  | EmptyString => key
  | String c rest => String (lower_char c) rest
  end.

(** The convenience alias added after the keys are rewritten. *)
Definition add_aliases (result : dict) : dict :=
  if dict_mem result "documentId" && negb (dict_mem result "id")
  then dict_set result "id" (VStr (py_str (dict_get result "documentId")))
  else result.

Fixpoint _to_camel_case_keys (obj : value) : value :=
  match obj with
  | VNone => VNone
  | VList l => VList (map _to_camel_case_keys l)
  | VDict d =>
      let result :=
        (fix loop (items : list (string * value)) (result : dict) : dict :=
           match items with
           | [] => result
           | (key, val) :: rest =>
               loop rest (dict_set result (camel_key key) (_to_camel_case_keys val))
           end) d [] in
      VDict (add_aliases result)
  | _ => obj
  end.

(** The key-rewriting loop on its own, for stating properties of it. *)
Fixpoint camel_loop (items : list (string * value)) (result : dict) : dict :=
  match items with
  | [] => result
  | (key, val) :: rest =>
      camel_loop rest (dict_set result (camel_key key) (_to_camel_case_keys val))
  end.

(** The specification's reading of the normaliser: the same tree with every
    mapping key rewritten by [camel_key], nothing added and nothing merged. *)
Fixpoint rename_keys (obj : value) : value :=
  match obj with
  | VList l => VList (map rename_keys l)
  | VDict d =>
      VDict
        ((fix entries (items : list (string * value)) : dict :=
            match items with
            | [] => []
            | (key, val) :: rest => (camel_key key, rename_keys val) :: entries rest
            end) d)
  | _ => obj
  end.

Fixpoint string_in (k : string) (ks : list string) : bool :=
  match ks with
  | [] => false
  | k' :: rest => String.eqb k' k || string_in k rest
  end.

Fixpoint distinct (ks : list string) : bool :=
  match ks with
  | [] => true
  | k :: rest => negb (string_in k rest) && distinct rest
  end.

Definition is_scalar (v : value) : bool :=
  match v with
  | VBool _ | VInt _ | VFloat _ | VStr _ => true
  | _ => false
  end.

(** A value in the shape the normaliser produces. *)
Unset Elimination Schemes.
Inductive normalized : value -> Prop :=
| Norm_none : normalized VNone
| Norm_bool b : normalized (VBool b)
| Norm_int z : normalized (VInt z)
| Norm_float f : normalized (VFloat f)
| Norm_str s : normalized (VStr s)
| Norm_list l : Forall normalized l -> normalized (VList l)
| Norm_dict d :
    distinct (dict_keys d) = true ->
    Forall (fun kv => camel_key (fst kv) = fst kv /\ normalized (snd kv)) d ->
    (dict_mem d "documentId" = true -> dict_mem d "id" = true) ->
    normalized (VDict d).
Set Elimination Schemes.

(* ================================================================== *)
(** ** Response envelope: [ApiResponse] *)

Module ApiResponse.

Record t : Type := mk {
  guid : value;
  success : value;
  timestamp_utc : value;
  status_code : value;
  error_message : value;
  data : value;
  total_count : value;
  processing_time_ms : value;
  raw_response : dict
}.

Definition from_dict (d : dict) : t :=
  let raw_data := py_or (dict_get d "Data") (dict_get d "data") in
  let converted_data :=
    if truthy raw_data then _to_camel_case_keys raw_data else VNone in
  {| guid := py_or (dict_get d "Guid") (dict_get d "guid");
     success := py_or (dict_get d "Success") (dict_get_default d "success" (VBool false));
     timestamp_utc := py_or (dict_get d "TimestampUtc") (dict_get d "timestampUtc");
     status_code := py_or (dict_get d "StatusCode") (dict_get_default d "statusCode" (VInt 0));
     error_message := py_or (dict_get d "ErrorMessage") (dict_get d "errorMessage");
     data := converted_data;
     total_count := py_or (dict_get d "TotalCount") (dict_get d "totalCount");
     processing_time_ms :=
       py_or (dict_get d "ProcessingTimeMs") (dict_get d "processingTimeMs");
     raw_response := d |}.

End ApiResponse.

(** [f >= 400] for a float. *)
Definition float_ge_400 (f : pyfloat) : bool :=
  match fl_class f with
  | FlNan => false
  | FlInf negative => negb negative
  | FlFinite q => Qle_bool (400 # 1) q
  end.

(** [x >= 400]; [None] stands for the [TypeError] of an unordered
    comparison ([None], [str], [list] or [dict] against an [int]). *)
Definition ge_400 (v : value) : option bool :=
  match v with
  | VInt z => Some (400 <=? z)
  | VBool b => Some (400 <=? (if b then 1 else 0))
  | VFloat f => Some (float_ge_400 f)
  | _ => None
  end.

(** The envelope fields of the specification, with the two key spellings
    and the default of each. *)
Inductive envelope_field : Type :=
| FGuid | FSuccess | FTimestampUtc | FStatusCode | FErrorMessage
| FTotalCount | FProcessingTimeMs.

Definition capitalized_key (f : envelope_field) : string :=
  match f with
  | FGuid => "Guid"
  | FSuccess => "Success"
  | FTimestampUtc => "TimestampUtc"
  | FStatusCode => "StatusCode"
  | FErrorMessage => "ErrorMessage"
  | FTotalCount => "TotalCount"
  | FProcessingTimeMs => "ProcessingTimeMs"
  end.

Definition lowercase_key (f : envelope_field) : string :=
  camel_key (capitalized_key f).

Definition field_default (f : envelope_field) : value :=
  match f with
  | FSuccess => VBool false
  | FStatusCode => VInt 0
  | _ => VNone
  end.

Definition field_of (f : envelope_field) (r : ApiResponse.t) : value :=
  match f with
  | FGuid => ApiResponse.guid r
  | FSuccess => ApiResponse.success r
  | FTimestampUtc => ApiResponse.timestamp_utc r
  | FStatusCode => ApiResponse.status_code r
  | FErrorMessage => ApiResponse.error_message r
  | FTotalCount => ApiResponse.total_count r
  | FProcessingTimeMs => ApiResponse.processing_time_ms r
  end.

(** The specification's lookup: the capitalized key when present, else the
    lowercase key when present, else the default. *)
Definition presence_lookup (d : dict) (cap low : string) (default : value) : value :=
  match dict_lookup d cap with
  | Some v => v
  | None =>
      match dict_lookup d low with
      | Some v => v
      | None => default
      end
  end.

(** The specification's envelope invariant on the two fields. *)
Definition envelope_invariant (success status_code : value) : Prop :=
  (ge_400 status_code = Some true -> truthy success = false) /\
  (truthy success = true -> ge_400 status_code = Some false).

(* ================================================================== *)
(** ** Errors and results of a call *)

Module VerbexError.

Record t : Type := mk {
  message : value;
  status_code : value;
  response : option ApiResponse.t
}.

(** [VerbexError(message)]: [status_code] defaults to 0, [response] to
    [None]. *)
Definition of_message (msg : string) : t :=
  {| message := VStr msg; status_code := VInt 0; response := None |}.

End VerbexError.

(** What a call can raise: the SDK's own error, or an interpreter error
    from an operation on a value of the wrong type. *)
Inductive exception : Type :=
| RaisedVerbexError (e : VerbexError.t)
| RaisedTypeError
| RaisedAttributeError.

Inductive outcome (A : Type) : Type :=
| Returns (a : A)
| Raises (e : exception).

Arguments Returns {A} a.
Arguments Raises {A} e.

Definition bind {A B : Type} (m : outcome A) (k : A -> outcome B) : outcome B :=
  match m with
  | Returns a => k a
  | Raises e => Raises e
  end.

(* ================================================================== *)
(** ** Transport *)

Record Request : Type := mkRequest {
  req_method : string;
  req_url : string;
  req_headers : list (string * string);
  req_json : option value
}.

(** What the SDK reads from a transport response.  [resp_json = None] is a
    body for which [response.json()] raises [json.JSONDecodeError]. *)
Record Response : Type := mkResponse {
  resp_json : option value;
  resp_ok : bool;
  resp_status_code : Z;
  resp_text : string
}.

(** The session either answers or raises a [requests.RequestException]
    whose [str()] is the carried text. *)
Inductive transport_result : Type :=
| Responds (r : Response)
| RequestException (text : string).

Definition transport : Type := Request -> transport_result.

(* ================================================================== *)
(** ** The client *)

Record VerbexClient : Type := mkClient {
  _endpoint : string;
  _access_key : string;
  _session : transport
}.

(** [s.rstrip('/')]. *)
Fixpoint rstrip_slash (s : string) : string :=
  match s with
  | EmptyString => EmptyString
  | String c rest =>
      let rest' := rstrip_slash rest in
      if Ascii.eqb c "/"%char && String.eqb rest' "" then EmptyString
      else String c rest'
  end.

(** [VerbexClient(endpoint, access_key)] over a given session. *)
Definition VerbexClient_init (endpoint access_key : string) (session : transport)
  : VerbexClient :=
  {| _endpoint := rstrip_slash endpoint;
     _access_key := access_key;
     _session := session |}.

Definition _get_auth_headers (self : VerbexClient) : list (string * string) :=
  [("Authorization", "Bearer " ++ _access_key self)].

(** The payload synthesised when the body is not JSON. *)
Definition fallback_payload (r : Response) : value :=
  VDict [("success", VBool (resp_ok r));
         ("statusCode", VInt (resp_status_code r));
         ("data", if negb (String.eqb (resp_text r) "") then VStr (resp_text r) else VNone)].

(** [VerbexError(error_message or f"Request failed with status {status_code}",
    status_code, api_response)]. *)
Definition api_error (api_response : ApiResponse.t) : VerbexError.t :=
  {| VerbexError.message :=
       py_or (ApiResponse.error_message api_response)
         (VStr ("Request failed with status "
                ++ py_str (ApiResponse.status_code api_response)));
     VerbexError.status_code := ApiResponse.status_code api_response;
     VerbexError.response := Some api_response |}.

(** The part of [_make_request] that follows the decoding of the body. *)
Definition handle_payload (response_data : value) : outcome ApiResponse.t :=
  match response_data with
  | VDict d =>
      let api_response := ApiResponse.from_dict d in
      if negb (truthy (ApiResponse.success api_response)) then
        match ge_400 (ApiResponse.status_code api_response) with
        | None => Raises RaisedTypeError
        | Some true =>
            Raises (RaisedVerbexError (api_error api_response))
        | Some false => Returns api_response
        end
      else Returns api_response
  | _ => Raises RaisedAttributeError
  end.

Definition _make_request (self : VerbexClient) (method path : string)
    (data : option value) (require_auth : bool) : outcome ApiResponse.t :=
  let url := _endpoint self ++ path in
  let headers := if require_auth then _get_auth_headers self else [] in
  let sent :=
    if String.eqb method "GET" then
      Some (_session self (mkRequest "GET" url headers None))
    else if String.eqb method "POST" then
      Some (_session self (mkRequest "POST" url headers data))
    else if String.eqb method "PUT" then
      Some (_session self (mkRequest "PUT" url headers data))
    else if String.eqb method "DELETE" then
      Some (_session self (mkRequest "DELETE" url headers None))
    else None in
  match sent with
  | None =>
      Raises (RaisedVerbexError
                (VerbexError.of_message ("Unsupported HTTP method: " ++ method)))
  | Some (RequestException text) =>
      Raises (RaisedVerbexError (VerbexError.of_message ("Request failed: " ++ text)))
  | Some (Responds response) =>
      let response_data :=
        match resp_json response with
        | Some j => j
        | None => fallback_payload response
        end in
      handle_payload response_data
  end.

(** Typed arguments as Python values. *)
Definition of_opt_str (o : option string) : value :=
  match o with Some s => VStr s | None => VNone end.

Definition of_labels (o : option (list string)) : value :=
  match o with Some l => VList (map VStr l) | None => VNone end.

Definition of_tags (o : option (list (string * string))) : value :=
  match o with
  | Some t => VDict (map (fun kv => (fst kv, VStr (snd kv))) t)
  | None => VNone
  end.

(** [len(x)] of a list or dict argument. *)
Definition py_len (v : value) : Z :=
  match v with
  | VList l => Z.of_nat (List.length l)
  | VDict d => Z.of_nat (List.length d)
  | _ => 0
  end.

Definition health_check (self : VerbexClient) : outcome ApiResponse.t :=
  _make_request self "GET" "/v1.0/health" None false.

Definition root_health_check (self : VerbexClient) : outcome ApiResponse.t :=
  _make_request self "GET" "/" None false.

Definition login (self : VerbexClient) (username password : string)
  : outcome ApiResponse.t :=
  _make_request self "POST" "/v1.0/auth/login"
    (Some (VDict [("Username", VStr username); ("Password", VStr password)])) false.

Definition validate_token (self : VerbexClient) : outcome ApiResponse.t :=
  _make_request self "GET" "/v1.0/auth/validate" None true.

Definition list_indices (self : VerbexClient) : outcome ApiResponse.t :=
  _make_request self "GET" "/v1.0/indices" None true.

Record create_index_args : Type := mkCreateIndexArgs {
  ci_id : string;
  ci_name : option string;
  ci_description : option string;
  ci_repository_filename : option string;
  ci_in_memory : bool;
  ci_storage_mode : string;
  ci_enable_lemmatizer : bool;
  ci_enable_stop_word_remover : bool;
  ci_min_token_length : Z;
  ci_max_token_length : Z;
  ci_labels : option (list string);
  ci_tags : option (list (string * string))
}.

(** The request body [data] that [create_index] builds. *)
Definition create_index_data (a : create_index_args) : dict :=
  let id := ci_id a in
  let data :=
    [("Id", VStr id);
     ("Name", py_or (of_opt_str (ci_name a)) (VStr id));
     ("Description", py_or (of_opt_str (ci_description a)) (VStr ""));
     ("RepositoryFilename",
        py_or (of_opt_str (ci_repository_filename a)) (VStr (id ++ ".db")));
     ("InMemory", VBool (ci_in_memory a));
     ("StorageMode", VStr (ci_storage_mode a));
     ("EnableLemmatizer", VBool (ci_enable_lemmatizer a));
     ("EnableStopWordRemover", VBool (ci_enable_stop_word_remover a));
     ("MinTokenLength", VInt (ci_min_token_length a));
     ("MaxTokenLength", VInt (ci_max_token_length a))] in
  let data :=
    if truthy (of_labels (ci_labels a))
    then dict_set data "Labels" (of_labels (ci_labels a)) else data in
  let data :=
    if truthy (of_tags (ci_tags a))
    then dict_set data "Tags" (of_tags (ci_tags a)) else data in
  data.

Definition create_index (self : VerbexClient) (a : create_index_args)
  : outcome ApiResponse.t :=
  _make_request self "POST" "/v1.0/indices" (Some (VDict (create_index_data a))) true.

Definition get_index (self : VerbexClient) (index_id : string)
  : outcome ApiResponse.t :=
  _make_request self "GET" ("/v1.0/indices/" ++ index_id) None true.

Definition delete_index (self : VerbexClient) (index_id : string)
  : outcome ApiResponse.t :=
  _make_request self "DELETE" ("/v1.0/indices/" ++ index_id) None true.

Definition update_index_labels (self : VerbexClient) (index_id : string)
    (labels : option (list string)) : outcome ApiResponse.t :=
  _make_request self "PUT" ("/v1.0/indices/" ++ index_id ++ "/labels")
    (Some (VDict [("Labels", py_or (of_labels labels) (VList []))])) true.

Definition update_index_tags (self : VerbexClient) (index_id : string)
    (tags : option (list (string * string))) : outcome ApiResponse.t :=
  _make_request self "PUT" ("/v1.0/indices/" ++ index_id ++ "/tags")
    (Some (VDict [("Tags", py_or (of_tags tags) (VDict []))])) true.

Definition list_documents (self : VerbexClient) (index_id : string)
  : outcome ApiResponse.t :=
  _make_request self "GET" ("/v1.0/indices/" ++ index_id ++ "/documents") None true.

(** The request body [data] that [add_document] builds. *)
Definition add_document_data (content : string) (document_id : option string)
    (labels : option (list string)) (tags : option (list (string * string))) : dict :=
  let data := [("Content", VStr content)] in
  let data :=
    if truthy (of_opt_str document_id)
    then dict_set data "Id" (of_opt_str document_id) else data in
  let data :=
    if truthy (of_labels labels) then dict_set data "Labels" (of_labels labels) else data in
  let data :=
    if truthy (of_tags tags) then dict_set data "Tags" (of_tags tags) else data in
  data.

Definition add_document (self : VerbexClient) (index_id content : string)
    (document_id : option string) (labels : option (list string))
    (tags : option (list (string * string))) : outcome ApiResponse.t :=
  _make_request self "POST" ("/v1.0/indices/" ++ index_id ++ "/documents")
    (Some (VDict (add_document_data content document_id labels tags))) true.

Definition get_document (self : VerbexClient) (index_id document_id : string)
  : outcome ApiResponse.t :=
  _make_request self "GET"
    ("/v1.0/indices/" ++ index_id ++ "/documents/" ++ document_id) None true.

Definition delete_document (self : VerbexClient) (index_id document_id : string)
  : outcome ApiResponse.t :=
  _make_request self "DELETE"
    ("/v1.0/indices/" ++ index_id ++ "/documents/" ++ document_id) None true.

Definition update_document_labels (self : VerbexClient) (index_id document_id : string)
    (labels : option (list string)) : outcome ApiResponse.t :=
  _make_request self "PUT"
    ("/v1.0/indices/" ++ index_id ++ "/documents/" ++ document_id ++ "/labels")
    (Some (VDict [("Labels", py_or (of_labels labels) (VList []))])) true.

Definition update_document_tags (self : VerbexClient) (index_id document_id : string)
    (tags : option (list (string * string))) : outcome ApiResponse.t :=
  _make_request self "PUT"
    ("/v1.0/indices/" ++ index_id ++ "/documents/" ++ document_id ++ "/tags")
    (Some (VDict [("Tags", py_or (of_tags tags) (VDict []))])) true.

(** The request body [data] that [search] builds. *)
Definition search_data (query : string) (max_results : Z)
    (labels : option (list string)) (tags : option (list (string * string))) : dict :=
  let data := [("Query", VStr query); ("MaxResults", VInt max_results)] in
  let data :=
    if truthy (of_labels labels) && (0 <? py_len (of_labels labels))
    then dict_set data "Labels" (of_labels labels) else data in
  let data :=
    if truthy (of_tags tags) && (0 <? py_len (of_tags tags))
    then dict_set data "Tags" (of_tags tags) else data in
  data.

Definition search (self : VerbexClient) (index_id query : string) (max_results : Z)
    (labels : option (list string)) (tags : option (list (string * string)))
  : outcome ApiResponse.t :=
  _make_request self "POST" ("/v1.0/indices/" ++ index_id ++ "/search")
    (Some (VDict (search_data query max_results labels tags))) true.

(** Every operation of the client that returns an envelope, with its
    arguments. *)
Inductive operation : Type :=
| Op_health_check
| Op_root_health_check
| Op_login (username password : string)
| Op_validate_token
| Op_list_indices
| Op_create_index (a : create_index_args)
| Op_get_index (index_id : string)
| Op_delete_index (index_id : string)
| Op_update_index_labels (index_id : string) (labels : option (list string))
| Op_update_index_tags (index_id : string) (tags : option (list (string * string)))
| Op_list_documents (index_id : string)
| Op_add_document (index_id content : string) (document_id : option string)
    (labels : option (list string)) (tags : option (list (string * string)))
| Op_get_document (index_id document_id : string)
| Op_delete_document (index_id document_id : string)
| Op_update_document_labels (index_id document_id : string)
    (labels : option (list string))
| Op_update_document_tags (index_id document_id : string)
    (tags : option (list (string * string)))
| Op_search (index_id query : string) (max_results : Z)
    (labels : option (list string)) (tags : option (list (string * string))).

Definition call (self : VerbexClient) (op : operation) : outcome ApiResponse.t :=
  match op with
  | Op_health_check => health_check self
  | Op_root_health_check => root_health_check self
  | Op_login u p => login self u p
  | Op_validate_token => validate_token self
  | Op_list_indices => list_indices self
  | Op_create_index a => create_index self a
  | Op_get_index i => get_index self i
  | Op_delete_index i => delete_index self i
  | Op_update_index_labels i l => update_index_labels self i l
  | Op_update_index_tags i t => update_index_tags self i t
  | Op_list_documents i => list_documents self i
  | Op_add_document i c d l t => add_document self i c d l t
  | Op_get_document i d => get_document self i d
  | Op_delete_document i d => delete_document self i d
  | Op_update_document_labels i d l => update_document_labels self i d l
  | Op_update_document_tags i d t => update_document_tags self i d t
  | Op_search i q m l t => search self i q m l t
  end.

(* ================================================================== *)
(** ** Domain models and the helpers that return them *)

Module IndexInfo.

Record t : Type := mk {
  id : value;
  name : value;
  description : value;
  enabled : value;
  in_memory : value;
  created_utc : value;
  statistics : value;
  labels : value;
  tags : value
}.

Definition from_dict (d : dict) : t :=
  {| id := dict_get_default d "id" (VStr "");
     name := dict_get d "name";
     description := dict_get d "description";
     enabled := dict_get d "enabled";
     in_memory := dict_get d "inMemory";
     created_utc := dict_get d "createdUtc";
     statistics := dict_get d "statistics";
     labels := dict_get d "labels";
     tags := dict_get d "tags" |}.

End IndexInfo.

Module DocumentInfo.

Record t : Type := mk {
  id : value;
  name : value;
  created_utc : value;
  labels : value;
  tags : value
}.

Definition from_dict (d : dict) : t :=
  {| id := dict_get_default d "id" (VStr "");
     name := dict_get d "name";
     created_utc := dict_get d "createdUtc";
     labels := dict_get d "labels";
     tags := dict_get d "tags" |}.

End DocumentInfo.

Module SearchResult.

Record t : Type := mk {
  document_id : value;
  score : value;
  content : value
}.

Definition from_dict (d : dict) : t :=
  {| document_id := dict_get_default d "documentId" (VStr "");
     score := dict_get_default d "score" (VFloat (mkFloat (FlFinite 0) "0.0"));
     content := dict_get d "content" |}.

End SearchResult.

(** [x.get] exists on a dict only: any other value raises
    [AttributeError]. *)
Definition as_dict (v : value) : outcome dict :=
  match v with
  | VDict d => Returns d
  | _ => Raises RaisedAttributeError
  end.

(** The items a [for] loop over [v] visits: the elements of a list, the
    keys of a dict, the characters of a string; other values are not
    iterable. *)
Definition py_iter (v : value) : outcome (list value) :=
  match v with
  | VList l => Returns l
  | VDict d => Returns (map (fun kv => VStr (fst kv)) d)
  | VStr s => Returns (map (fun c => VStr (String c "")) (list_ascii_of_string s))
  | _ => Raises RaisedTypeError
  end.

(** [[f(x) for x in xs]]. *)
Fixpoint for_each {A B : Type} (f : A -> outcome B) (xs : list A) : outcome (list B) :=
  match xs with
  | [] => Returns []
  | x :: rest =>
      bind (f x) (fun y => bind (for_each f rest) (fun ys => Returns (y :: ys)))
  end.

Fixpoint is_substring (needle hay : string) : bool :=
  String.prefix needle hay
  || match hay with
     | EmptyString => false
     | String _ rest => is_substring needle rest
     end.

Definition is_str (text : string) (v : value) : bool :=
  match v with
  | VStr s => String.eqb s text
  | _ => false
  end.

(** [key in container] for a string [key]. *)
Definition py_contains (container : value) (key : string) : outcome bool :=
  match container with
  | VDict d => Returns (dict_mem d key)
  | VList l => Returns (existsb (is_str key) l)
  | VStr s => Returns (is_substring key s)
  | _ => Raises RaisedTypeError
  end.

(** [container[key]] for a string [key] known to be [in] the container:
    only a dict can be indexed by a string. *)
Definition py_getitem (container : value) (key : string) : outcome value :=
  match container with
  | VDict d => Returns (dict_get d key)
  | _ => Raises RaisedTypeError
  end.

Module SearchResponse.

Record t : Type := mk {
  query : value;
  results : list SearchResult.t;
  total_count : value;
  max_results : value
}.

Definition from_dict (v : value) : outcome t :=
  bind (as_dict v) (fun d =>
  bind (py_iter (dict_get_default d "results" (VList []))) (fun items =>
  bind (for_each (fun r => bind (as_dict r) (fun rd => Returns (SearchResult.from_dict rd)))
          items) (fun results =>
  Returns {| query := dict_get_default d "query" (VStr "");
             results := results;
             total_count := dict_get_default d "totalCount" (VInt 0);
             max_results := dict_get_default d "maxResults" (VInt 100) |}))).

End SearchResponse.

(** The shared body of [get_indices] and [get_documents]. *)
Definition models_under {A : Type} (from_dict : dict -> A) (key : string)
    (response : ApiResponse.t) : outcome (list A) :=
  let data := ApiResponse.data response in
  if truthy data then
    bind (py_contains data key) (fun present =>
    if present then
      bind (py_getitem data key) (fun listed =>
      bind (py_iter listed) (fun items =>
      for_each (fun x => bind (as_dict x) (fun d => Returns (from_dict d))) items))
    else Returns [])
  else Returns [].

Definition get_indices (self : VerbexClient) : outcome (list IndexInfo.t) :=
  bind (list_indices self) (models_under IndexInfo.from_dict "indices").

Definition get_index_info (self : VerbexClient) (index_id : string)
  : outcome (option IndexInfo.t) :=
  bind (get_index self index_id) (fun response =>
  if truthy (ApiResponse.data response) then
    bind (as_dict (ApiResponse.data response)) (fun d =>
    Returns (Some (IndexInfo.from_dict d)))
  else Returns None).

Definition get_documents (self : VerbexClient) (index_id : string)
  : outcome (list DocumentInfo.t) :=
  bind (list_documents self index_id) (models_under DocumentInfo.from_dict "documents").

Definition get_document_info (self : VerbexClient) (index_id document_id : string)
  : outcome (option DocumentInfo.t) :=
  bind (get_document self index_id document_id) (fun response =>
  if truthy (ApiResponse.data response) then
    bind (as_dict (ApiResponse.data response)) (fun d =>
    Returns (Some (DocumentInfo.from_dict d)))
  else Returns None).

Definition search_documents (self : VerbexClient) (index_id query : string)
    (max_results : Z) (labels : option (list string))
    (tags : option (list (string * string))) : outcome (option SearchResponse.t) :=
  bind (search self index_id query max_results labels tags) (fun response =>
  if truthy (ApiResponse.data response) then
    bind (SearchResponse.from_dict (ApiResponse.data response)) (fun r =>
    Returns (Some r))
  else Returns None).

(** The helpers of the client that return domain models, with their
    arguments, and what they return. *)
Inductive helper : Type :=
| H_get_indices
| H_get_index_info (index_id : string)
| H_get_documents (index_id : string)
| H_get_document_info (index_id document_id : string)
| H_search_documents (index_id query : string) (max_results : Z)
    (labels : option (list string)) (tags : option (list (string * string))).

Inductive model : Type :=
| Indices (l : list IndexInfo.t)
| Index (o : option IndexInfo.t)
| Documents (l : list DocumentInfo.t)
| Document (o : option DocumentInfo.t)
| Search (o : option SearchResponse.t).

Definition call_helper (self : VerbexClient) (h : helper) : outcome model :=
  match h with
  | H_get_indices => bind (get_indices self) (fun l => Returns (Indices l))
  | H_get_index_info i => bind (get_index_info self i) (fun o => Returns (Index o))
  | H_get_documents i => bind (get_documents self i) (fun l => Returns (Documents l))
  | H_get_document_info i d =>
      bind (get_document_info self i d) (fun o => Returns (Document o))
  | H_search_documents i q m l t =>
      bind (search_documents self i q m l t) (fun o => Returns (Search o))
  end.

(* ================================================================== *)
(** ** Conformance harness: [TestHarness._run_test], [TestHarness.run], [main] *)

Module TestResult.

Record t : Type := mk {
  name : string;
  passed : bool;
  message : string
}.

End TestResult.

(** How the body of a scenario ends. *)
Inductive scenario_outcome : Type :=
| Completes
| AssertionError (text : string)
| OtherException (class_name text : string).

(** The test methods of the harness, in the order [run] calls them. *)
Inductive test_method : Type :=
| test_root_health_check | test_health_endpoint
| test_login_success | test_login_invalid_credentials
| test_validate_token | test_validate_invalid_token
| test_list_indices_initial | test_create_index | test_create_duplicate_index
| test_get_index | test_get_index_not_found | test_list_indices_after_create
| test_create_index_with_labels_and_tags | test_get_index_with_labels_and_tags
| test_list_documents_empty | test_add_document | test_add_document_with_id
| test_add_multiple_documents | test_list_documents_after_add
| test_get_document | test_get_document_not_found
| test_add_document_with_labels_and_tags | test_get_document_with_labels_and_tags
| test_search_basic | test_search_with_results | test_search_multiple_terms
| test_search_max_results | test_search_no_results | test_search_documents_helper
| test_search_with_label_filter | test_search_with_tag_filter
| test_search_with_labels_and_tags
| test_delete_document | test_delete_document_not_found
| test_verify_document_deleted
| test_delete_index | test_delete_index_not_found | test_verify_index_deleted.

(** The calls [self._run_test(name, method)] of [run], in order. *)
Definition scenarios : list (string * test_method) :=
  [("Root health check", test_root_health_check);
   ("Health endpoint", test_health_endpoint);
   ("Login with valid credentials", test_login_success);
   ("Login with invalid credentials", test_login_invalid_credentials);
   ("Validate token", test_validate_token);
   ("Validate invalid token", test_validate_invalid_token);
   ("List indices (initial)", test_list_indices_initial);
   ("Create index", test_create_index);
   ("Create duplicate index fails", test_create_duplicate_index);
   ("Get index", test_get_index);
   ("Get index not found", test_get_index_not_found);
   ("List indices (after create)", test_list_indices_after_create);
   ("Create index with labels and tags", test_create_index_with_labels_and_tags);
   ("Get index with labels and tags", test_get_index_with_labels_and_tags);
   ("List documents (empty)", test_list_documents_empty);
   ("Add document", test_add_document);
   ("Add document with ID", test_add_document_with_id);
   ("Add multiple documents", test_add_multiple_documents);
   ("List documents (after add)", test_list_documents_after_add);
   ("Get document", test_get_document);
   ("Get document not found", test_get_document_not_found);
   ("Add document with labels and tags", test_add_document_with_labels_and_tags);
   ("Get document with labels and tags", test_get_document_with_labels_and_tags);
   ("Basic search", test_search_basic);
   ("Search with results", test_search_with_results);
   ("Search multiple terms", test_search_multiple_terms);
   ("Search with max results", test_search_max_results);
   ("Search with no results", test_search_no_results);
   ("Search documents helper", test_search_documents_helper);
   ("Search with label filter", test_search_with_label_filter);
   ("Search with tag filter", test_search_with_tag_filter);
   ("Search with labels and tags", test_search_with_labels_and_tags);
   ("Delete document", test_delete_document);
   ("Delete document not found", test_delete_document_not_found);
   ("Verify document deleted", test_verify_document_deleted);
   ("Delete index", test_delete_index);
   ("Delete index not found", test_delete_index_not_found);
   ("Verify index deleted", test_verify_index_deleted)].

Definition usage_lines : list string :=
  ["Verbex SDK Test Harness - Python";
   "";
   "Usage: python test_harness.py <endpoint> <access_key>";
   "";
   "Arguments:";
   "  endpoint    The Verbex server endpoint (e.g., http://localhost:8080)";
   "  access_key  The bearer token for authentication";
   "";
   "Example:";
   "  python test_harness.py http://localhost:8080 verbexadmin"].

Section Harness.

(** Everything a scenario body can read or change: the live server, the
    client, the test index id and the documents the harness remembers. *)
Variable World : Type.

(** The body of each test method: how it ends and the world it leaves. *)
Variable test_fn : test_method -> World -> scenario_outcome * World.

(** The world [TestHarness(endpoint, access_key)] starts from. *)
Variable initial_world : string -> string -> World.

Record TestHarness : Type := mkHarness {
  _results : list TestResult.t;
  _passed : nat;
  _failed : nat;
  world : World
}.

Definition TestHarness_init (endpoint access_key : string) : TestHarness :=
  {| _results := []; _passed := 0; _failed := 0;
     world := initial_world endpoint access_key |}.

Definition _run_test (self : TestHarness) (name : string) (method : test_method)
  : TestHarness * TestResult.t :=
  let (ending, world') := test_fn method (world self) in
  match ending with
  | Completes =>
      let result := TestResult.mk name true "" in
      ({| _results := _results self ++ [result];
          _passed := _passed self + 1;
          _failed := _failed self;
          world := world' |}, result)
  | AssertionError text =>
      let result := TestResult.mk name false text in
      ({| _results := _results self ++ [result];
          _passed := _passed self;
          _failed := _failed self + 1;
          world := world' |}, result)
  | OtherException class_name text =>
      let result := TestResult.mk name false (class_name ++ ": " ++ text) in
      ({| _results := _results self ++ [result];
          _passed := _passed self;
          _failed := _failed self + 1;
          world := world' |}, result)
  end.

(** The body of [run]'s [try] block: one [_run_test] after the other. *)
Fixpoint run_scenarios (self : TestHarness) (todo : list (string * test_method))
  : TestHarness :=
  match todo with
  | [] => self
  | (name, method) :: rest => run_scenarios (fst (_run_test self name method)) rest
  end.

(** [run]: the harness after the run and the exit code it returns. *)
Definition run (self : TestHarness) : TestHarness * Z :=
  let self' := run_scenarios self scenarios in
  (self', if Nat.eqb (_failed self') 0 then 0 else 1).

Inductive main_result : Type :=
| PrintsUsage (lines : list string) (exit_code : Z)
| RunsHarness (final : TestHarness) (exit_code : Z).

(** [main] on [sys.argv]; the value it returns is the exit status. *)
Definition main (argv : list string) : main_result :=
  if negb (Nat.eqb (List.length argv) 3) then PrintsUsage usage_lines 1
  else
    let endpoint := nth 1 argv "" in
    let access_key := nth 2 argv "" in
    let (final, code) := run (TestHarness_init endpoint access_key) in
    RunsHarness final code.

Definition exit_code_of (r : main_result) : Z :=
  match r with
  | PrintsUsage _ c => c
  | RunsHarness _ c => c
  end.

End Harness.

Arguments _results {World} _.
Arguments _passed {World} _.
Arguments _failed {World} _.
Arguments world {World} _.
Arguments PrintsUsage {World} lines exit_code.
Arguments RunsHarness {World} final exit_code.
Arguments exit_code_of {World} r.

(* ================================================================== *)
(** ** Notions used to state the properties *)

(** Entries of a mapping in normalised shape. *)
Definition entry_ok (kv : string * value) : Prop :=
  camel_key (fst kv) = fst kv /\ normalized (snd kv).

(** The lookup [from_dict] performs for a field: the capitalized key's
    value when it is truthy, otherwise [d.get(low, default)]. *)
Definition truthy_lookup (d : dict) (cap low : string) (default : value) : value :=
  py_or (dict_get d cap) (dict_get_default d low default).

(** The payload [_make_request] hands to [from_dict]: the decoded body, or
    the fallback when decoding fails. *)
Definition response_data (r : Response) : value :=
  match resp_json r with
  | Some j => j
  | None => fallback_payload r
  end.

(** The error raised for a transport failure whose text is [text]:
    [VerbexError(f"Request failed: {str(e)}")], status code 0, no envelope. *)
Definition transport_error (text : string) : exception :=
  RaisedVerbexError
    {| VerbexError.message := VStr ("Request failed: " ++ text);
       VerbexError.status_code := VInt 0;
       VerbexError.response := None |}.

(** A client whose session gives the same answer to every request. *)
Definition client_answering (endpoint access_key : string) (answer : transport_result)
  : VerbexClient :=
  VerbexClient_init endpoint access_key (fun _ => answer).

Definition json_response (status : Z) (body : value) : Response :=
  {| resp_json := Some body;
     resp_ok := status <? 400;
     resp_status_code := status;
     resp_text := "" |}.

(** ** Concrete payloads *)

Definition colliding_payload : value :=
  VDict [("Name", VStr "first"); ("name", VStr "second")].

Definition nested_payload : value :=
  VDict [("Query", VStr "fox");
         ("Results", VList [VDict [("DocumentId", VInt 7); ("Score", VInt 1)];
                            VDict [("", VNone); ("Id", VStr "kept")]]);
         ("TotalCount", VInt 2)].

Definition success_with_server_error : dict :=
  [("Success", VBool true); ("StatusCode", VInt 500)].

Definition failure_with_ok_status : dict :=
  [("Success", VBool false); ("StatusCode", VInt 200)].

Definition not_found_payload : dict :=
  [("Success", VBool false); ("StatusCode", VInt 404);
   ("ErrorMessage", VStr "Index not found")].

Definition mixed_casing_payload : dict :=
  [("Success", VBool false); ("success", VBool true); ("TotalCount", VInt 0)].

Definition empty_data_payload : dict :=
  [("Success", VBool true); ("StatusCode", VInt 200); ("Data", VList [])].

Definition lowercase_payload : dict :=
  [("success", VBool true); ("statusCode", VInt 200);
   ("data", VDict [("Token", VStr "abc")])].

Definition indices_payload : dict :=
  [("Success", VBool true); ("StatusCode", VInt 200);
   ("Data", VDict [("Indices", VList [VDict [("Id", VStr "idx1"); ("Name", VStr "One")];
                                      VDict [("Id", VStr "idx2")]]);
                   ("Count", VInt 2)])].

Definition health_payload : dict :=
  [("Success", VBool true); ("StatusCode", VInt 200);
   ("Data", VDict [("Status", VStr "Healthy"); ("Version", VStr "1.0.0");
                   ("Timestamp", VStr "2025-01-01T00:00:00Z")])].

(** ** Notions for the harness *)

(** How each scenario of [todo] ends when they are executed one after the
    other, each in the world the previous one left. *)
Fixpoint endings {World : Type}
    (test_fn : test_method -> World -> scenario_outcome * World)
    (w : World) (todo : list (string * test_method)) : list scenario_outcome :=
  match todo with
  | [] => []
  | (_, method) :: rest =>
      let (ending, w') := test_fn method w in
      ending :: endings test_fn w' rest
  end.

Definition scenario_passed (e : scenario_outcome) : bool :=
  match e with Completes => true | _ => false end.

Definition count_failures (results : list TestResult.t) : nat :=
  List.length (filter (fun r => negb (TestResult.passed r)) results).

(** A server on which every scenario passes but the duplicate-index one. *)
Definition one_failure (m : test_method) (w : unit) : scenario_outcome * unit :=
  match m with
  | test_create_duplicate_index =>
      (AssertionError "Should have thrown VerbexError for duplicate", w)
  | _ => (Completes, w)
  end.

(* ================================================================== *)
(** ** The request an operation sends *)

(** What [_make_request] does with the session's answer. *)
Definition respond (answer : transport_result) : outcome ApiResponse.t :=
  match answer with
  | RequestException text => Raises (transport_error text)
  | Responds response => handle_payload (response_data response)
  end.

(** The arguments [method, path, data, require_auth] each operation passes
    to [_make_request]. *)
Definition request_arguments (op : operation)
  : string * string * option value * bool :=
  match op with
  | Op_health_check => ("GET", "/v1.0/health", None, false)
  | Op_root_health_check => ("GET", "/", None, false)
  | Op_login u p =>
      ("POST", "/v1.0/auth/login",
       Some (VDict [("Username", VStr u); ("Password", VStr p)]), false)
  | Op_validate_token => ("GET", "/v1.0/auth/validate", None, true)
  | Op_list_indices => ("GET", "/v1.0/indices", None, true)
  | Op_create_index a =>
      ("POST", "/v1.0/indices", Some (VDict (create_index_data a)), true)
  | Op_get_index i => ("GET", "/v1.0/indices/" ++ i, None, true)
  | Op_delete_index i => ("DELETE", "/v1.0/indices/" ++ i, None, true)
  | Op_update_index_labels i l =>
      ("PUT", "/v1.0/indices/" ++ i ++ "/labels",
       Some (VDict [("Labels", py_or (of_labels l) (VList []))]), true)
  | Op_update_index_tags i t =>
      ("PUT", "/v1.0/indices/" ++ i ++ "/tags",
       Some (VDict [("Tags", py_or (of_tags t) (VDict []))]), true)
  | Op_list_documents i => ("GET", "/v1.0/indices/" ++ i ++ "/documents", None, true)
  | Op_add_document i c d l t =>
      ("POST", "/v1.0/indices/" ++ i ++ "/documents",
       Some (VDict (add_document_data c d l t)), true)
  | Op_get_document i d =>
      ("GET", "/v1.0/indices/" ++ i ++ "/documents/" ++ d, None, true)
  | Op_delete_document i d =>
      ("DELETE", "/v1.0/indices/" ++ i ++ "/documents/" ++ d, None, true)
  | Op_update_document_labels i d l =>
      ("PUT", "/v1.0/indices/" ++ i ++ "/documents/" ++ d ++ "/labels",
       Some (VDict [("Labels", py_or (of_labels l) (VList []))]), true)
  | Op_update_document_tags i d t =>
      ("PUT", "/v1.0/indices/" ++ i ++ "/documents/" ++ d ++ "/tags",
       Some (VDict [("Tags", py_or (of_tags t) (VDict []))]), true)
  | Op_search i q m l t =>
      ("POST", "/v1.0/indices/" ++ i ++ "/search",
       Some (VDict (search_data q m l t)), true)
  end.

(** The request that reaches the session: [GET] and [DELETE] are sent
    without a body whatever [data] is. *)
Definition request_of (endpoint access_key : string) (op : operation) : Request :=
  let '(method, path, data, require_auth) := request_arguments op in
  {| req_method := method;
     req_url := endpoint ++ path;
     req_headers :=
       if require_auth then [("Authorization", "Bearer " ++ access_key)] else [];
     req_json :=
       if String.eqb method "POST" || String.eqb method "PUT" then data else None |}.

Definition is_supported_method (method : string) : bool :=
  String.eqb method "GET" || String.eqb method "POST"
  || String.eqb method "PUT" || String.eqb method "DELETE".

Fixpoint slashes (n : nat) : string :=
  match n with
  | O => ""
  | S n' => String "/" (slashes n')
  end.

Fixpoint ends_with_slash (s : string) : bool :=
  match s with
  | EmptyString => false
  | String c EmptyString => Ascii.eqb c "/"
  | String _ rest => ends_with_slash rest
  end.

(* ================================================================== *)
(** ** Merged keys *)

(** The value the key-rewriting loop leaves under [k]: that of the last
    entry whose rewritten key is [k]. *)
Fixpoint last_under (k : string) (items : list (string * value)) (found : option value)
  : option value :=
  match items with
  | [] => found
  | (key, val) :: rest =>
      last_under k rest (if String.eqb (camel_key key) k then Some val else found)
  end.

(** The keys of [ks] in the order of their first occurrence, after those
    already [seen]. *)
Fixpoint first_occurrences (seen ks : list string) : list string :=
  match ks with
  | [] => []
  | k :: rest =>
      if string_in k seen then first_occurrences seen rest
      else k :: first_occurrences (seen ++ [k]) rest
  end.

(* ================================================================== *)
(** ** Notions for the helpers *)

(** The operation each helper calls first. *)
Definition underlying (h : helper) : operation :=
  match h with
  | H_get_indices => Op_list_indices
  | H_get_index_info i => Op_get_index i
  | H_get_documents i => Op_list_documents i
  | H_get_document_info i d => Op_get_document i d
  | H_search_documents i q m l t => Op_search i q m l t
  end.

(** The mappings of a list all of whose items are mappings. *)
Fixpoint dicts_of (items : list value) : option (list dict) :=
  match items with
  | [] => Some []
  | VDict d :: rest =>
      match dicts_of rest with
      | Some ds => Some (d :: ds)
      | None => None
      end
  | _ :: _ => None
  end.

Definition nonempty {A : Type} (o : option (list A)) : bool :=
  match o with
  | Some (_ :: _) => true
  | _ => false
  end.

(* ================================================================== *)
(** ** Harness assertions and scenario bodies *)

(** Numbers as [==] sees them: a [bool] is 0 or 1, an [int] and a finite
    [float] compare by value. *)
Inductive number : Type :=
| NumNan
| NumInf (negative : bool)
| NumFinite (q : Q).

Definition as_number (v : value) : option number :=
  match v with
  | VBool b => Some (NumFinite (if b then 1 # 1 else 0 # 1))
  | VInt z => Some (NumFinite (z # 1))
  | VFloat f =>
      Some (match fl_class f with
            | FlNan => NumNan
            | FlInf negative => NumInf negative
            | FlFinite q => NumFinite q
            end)
  | _ => None
  end.

Definition number_eq (a b : number) : bool :=
  match a, b with
  | NumFinite p, NumFinite q => Qeq_bool p q
  | NumInf m, NumInf n => Bool.eqb m n
  | _, _ => false
  end.

(** [a == b]. *)
Fixpoint py_eq (a b : value) : bool :=
  match a with
  | VNone => match b with VNone => true | _ => false end
  | VBool _ | VInt _ | VFloat _ =>
      match as_number a, as_number b with
      | Some x, Some y => number_eq x y
      | _, _ => false
      end
  | VStr s => match b with VStr t => String.eqb s t | _ => false end
  | VList la =>
      match b with
      | VList lb =>
          (fix all (xs ys : list value) : bool :=
             match xs, ys with
             | [], [] => true
             | x :: xs', y :: ys' => py_eq x y && all xs' ys'
             | _, _ => false
             end) la lb
      | _ => false
      end
  | VDict da =>
      match b with
      | VDict db =>
          Nat.eqb (List.length da) (List.length db)
          && (fix all (xs : list (string * value)) : bool :=
                match xs with
                | [] => true
                | (k, x) :: xs' =>
                    match dict_lookup db k with
                    | Some y => py_eq x y
                    | None => false
                    end && all xs'
                end) da
      | _ => false
      end
  end.

(** How the body of a test method ends: it returns, an assertion of the
    harness fails, or an exception of the client passes through. *)
Inductive test_end : Type :=
| Passes
| FailsAssertion (message : string)
| Propagates (e : exception).

(** One statement after the other. *)
Definition and_then (first second : test_end) : test_end :=
  match first with
  | Passes => second
  | _ => first
  end.

(** A statement that uses the value of an expression of the client. *)
Definition on_value {A : Type} (o : outcome A) (k : A -> test_end) : test_end :=
  match o with
  | Returns a => k a
  | Raises e => Propagates e
  end.

Definition _assert (condition : bool) (message : string) : test_end :=
  if condition then Passes else FailsAssertion message.

(** [value is not None]. *)
Definition is_not_none (v : value) : bool :=
  match v with VNone => false | _ => true end.

(** [value is True]. *)
Definition is_True (v : value) : bool :=
  match v with VBool true => true | _ => false end.

Definition _assert_not_none (v : value) (field_name : string) : test_end :=
  _assert (is_not_none v) (field_name ++ " should not be None").

Definition _assert_equals (actual expected : value) (field_name : string) : test_end :=
  _assert (py_eq actual expected)
    (field_name ++ " expected '" ++ py_str expected ++ "', got '" ++ py_str actual ++ "'").

Definition _assert_true (v : value) (field_name : string) : test_end :=
  _assert (is_True v) (field_name ++ " should be True").

(** [response.data.get(key)]. *)
Definition data_get (response : ApiResponse.t) (key : string) : outcome value :=
  bind (as_dict (ApiResponse.data response)) (fun d => Returns (dict_get d key)).

(** [try: <attempt>; self._assert(False, otherwise)
     except VerbexError as e: self._assert_equals(e.status_code, code, ...)]:
    the [AssertionError] of the [try] block is not a [VerbexError] and
    leaves the [try] statement. *)
Definition expect_error (attempt : outcome ApiResponse.t) (code : Z) (otherwise : string)
    (handler_rest : VerbexError.t -> test_end) : test_end :=
  match attempt with
  | Returns _ => _assert false otherwise
  | Raises (RaisedVerbexError e) =>
      and_then (_assert_equals (VerbexError.status_code e) (VInt code) "error.status_code")
        (handler_rest e)
  | Raises e => Propagates e
  end.

(** The assertions both health tests make on the response. *)
Definition health_assertions (response : ApiResponse.t) : test_end :=
  and_then (_assert_true (ApiResponse.success response) "response.success")
  (and_then (_assert_equals (ApiResponse.status_code response) (VInt 200)
               "response.status_code")
  (and_then (_assert_not_none (ApiResponse.data response) "response.data")
  (on_value (data_get response "status") (fun status =>
   and_then (_assert_equals status (VStr "Healthy") "data.status")
  (on_value (data_get response "version") (fun version =>
   and_then (_assert_not_none version "data.version")
  (on_value (data_get response "timestamp") (fun timestamp =>
   _assert_not_none timestamp "data.timestamp")))))))).

(** The bodies of test methods that make one call, as functions of the
    harness fields they read. *)
Module Scenario.

Definition test_root_health_check (_client : VerbexClient) : test_end :=
  on_value (root_health_check _client) health_assertions.

Definition test_health_endpoint (_client : VerbexClient) : test_end :=
  on_value (health_check _client) health_assertions.

Definition test_login_invalid_credentials (_client : VerbexClient) : test_end :=
  expect_error (login _client "invalid" "invalid") 401 "Should have thrown VerbexError"
    (fun e => _assert_not_none (VerbexError.message e) "error.message").

Definition test_validate_token (_client : VerbexClient) : test_end :=
  on_value (validate_token _client) (fun response =>
  and_then (_assert_true (ApiResponse.success response) "response.success")
  (and_then (_assert_equals (ApiResponse.status_code response) (VInt 200)
               "response.status_code")
  (and_then (_assert_not_none (ApiResponse.data response) "response.data")
  (on_value (data_get response "valid") (fun valid =>
   _assert_true valid "data.valid"))))).

(** The second client of the harness is built from the harness's own
    [_endpoint] and talks to the same server. *)
Definition test_validate_invalid_token (_endpoint : string) (network : transport)
  : test_end :=
  let invalid_client := VerbexClient_init _endpoint "invalid-token" network in
  expect_error (validate_token invalid_client) 401 "Should have thrown VerbexError"
    (fun _ => Passes).

Definition test_create_duplicate_index (_client : VerbexClient) (_test_index_id : string)
  : test_end :=
  expect_error
    (create_index _client
       (mkCreateIndexArgs _test_index_id (Some "Duplicate") None None false "MemoryOnly"
          false false 0 0 None None))
    409 "Should have thrown VerbexError for duplicate" (fun _ => Passes).

Definition test_get_index_not_found (_client : VerbexClient) : test_end :=
  expect_error (get_index _client "non-existent-index-12345") 404
    "Should have thrown VerbexError for not found" (fun _ => Passes).

Definition test_delete_index (_client : VerbexClient) (_test_index_id : string)
  : test_end :=
  on_value (delete_index _client _test_index_id) (fun response =>
  and_then (_assert_true (ApiResponse.success response) "response.success")
  (and_then (_assert_equals (ApiResponse.status_code response) (VInt 200)
               "response.status_code")
  (and_then (_assert_not_none (ApiResponse.data response) "response.data")
  (on_value (data_get response "indexId") (fun index_id =>
   and_then (_assert_equals index_id (VStr _test_index_id) "data.indexId")
  (on_value (data_get response "message") (fun message =>
   _assert_not_none message "data.message"))))))).

Definition test_delete_index_not_found (_client : VerbexClient) : test_end :=
  expect_error (delete_index _client "non-existent-index-67890") 404
    "Should have thrown VerbexError for not found" (fun _ => Passes).

Definition test_verify_index_deleted (_client : VerbexClient) (_test_index_id : string)
  : test_end :=
  expect_error (get_index _client _test_index_id) 404
    "Should have thrown VerbexError for deleted index" (fun _ => Passes).

End Scenario.

(* ================================================================== *)
(** ** The normaliser over the interpreter's own text operations *)

(** The operations on [str] that the normaliser leaves to the interpreter:
    indexing [key[0]], slicing [key[1:]], [s.lower()] (Unicode-aware: it
    lowers every cased character and may change the length of the text)
    and [str(v)] (which escapes what the interpreter does not print).  The
    properties that depend on their results are stated for any such
    operations; [_to_camel_case_keys] above is the instance
    [ascii_builtins], exact for text made of ASCII characters. *)
Record builtins : Type := mkBuiltins {
  first_char : string -> string;
  rest_chars : string -> string;
  str_lower : string -> string;
  str_of : value -> string
}.

Section Builtins.

Variable py : builtins.

(** [key[0].lower() + key[1:] if key else key]. *)
Definition camel_key_with (key : string) : string :=
  if String.eqb key "" then key
  else str_lower py (first_char py key) ++ rest_chars py key.

Definition add_aliases_with (result : dict) : dict :=
  if dict_mem result "documentId" && negb (dict_mem result "id")
  then dict_set result "id" (VStr (str_of py (dict_get result "documentId")))
  else result.

Fixpoint _to_camel_case_keys_with (obj : value) : value :=
  match obj with
  | VNone => VNone
  | VList l => VList (map _to_camel_case_keys_with l)
  | VDict d =>
      let result :=
        (fix loop (items : list (string * value)) (result : dict) : dict :=
           match items with
           | [] => result
           | (key, val) :: rest =>
               loop rest
                 (dict_set result (camel_key_with key) (_to_camel_case_keys_with val))
           end) d [] in
      VDict (add_aliases_with result)
  | _ => obj
  end.

(** The key-rewriting loop on its own. *)
Fixpoint camel_loop_with (items : list (string * value)) (result : dict) : dict :=
  match items with
  | [] => result
  | (key, val) :: rest =>
      camel_loop_with rest
        (dict_set result (camel_key_with key) (_to_camel_case_keys_with val))
  end.

(** The tree of the same shape with every mapping key rewritten, and, in
    every mapping, the [id] alias appended after the last entry when
    [documentId] is there and [id] is not. *)
Definition append_alias (result : dict) : dict :=
  if dict_mem result "documentId" && negb (dict_mem result "id")
  then (result ++ [("id", VStr (str_of py (dict_get result "documentId")))])%list
  else result.

Fixpoint rename_keys_alias (obj : value) : value :=
  match obj with
  | VList l => VList (map rename_keys_alias l)
  | VDict d =>
      VDict
        (append_alias
           ((fix entries (items : list (string * value)) : dict :=
               match items with
               | [] => []
               | (key, val) :: rest =>
                   (camel_key_with key, rename_keys_alias val) :: entries rest
               end) d))
  | _ => obj
  end.

Fixpoint rename_entries (items : list (string * value)) : dict :=
  match items with
  | [] => []
  | (key, val) :: rest =>
      (camel_key_with key, rename_keys_alias val) :: rename_entries rest
  end.

(** No mapping of the tree, at any depth, holds two keys that the key
    rewrite sends to the same key. *)
Fixpoint collision_free (obj : value) : bool :=
  match obj with
  | VList l =>
      (fix all (xs : list value) : bool :=
         match xs with
         | [] => true
         | x :: rest => collision_free x && all rest
         end) l
  | VDict d =>
      distinct (map camel_key_with (dict_keys d))
      && (fix all (xs : list (string * value)) : bool :=
            match xs with
            | [] => true
            | (_, x) :: rest => collision_free x && all rest
            end) d
  | _ => true
  end.

(** The value the key-rewriting loop leaves under [k]: that of the last
    entry whose rewritten key is [k]. *)
Fixpoint last_rewritten_to (k : string) (items : list (string * value))
    (found : option value) : option value :=
  match items with
  | [] => found
  | (key, val) :: rest =>
      last_rewritten_to k rest
        (if String.eqb (camel_key_with key) k then Some val else found)
  end.

End Builtins.

(** The text operations on ASCII text. *)
Definition ascii_first_char (s : string) : string :=
  match s with
  | EmptyString => EmptyString
  | String c _ => String c EmptyString
  end.

Definition ascii_rest_chars (s : string) : string :=
  match s with
  | EmptyString => EmptyString
  | String _ rest => rest
  end.

Fixpoint ascii_lower (s : string) : string :=
  match s with
  | EmptyString => EmptyString
  | String c rest => String (lower_char c) (ascii_lower rest)
  end.

Definition ascii_builtins : builtins :=
  {| first_char := ascii_first_char;
     rest_chars := ascii_rest_chars;
     str_lower := ascii_lower;
     str_of := py_str |}.

(* ================================================================== *)
(** * Properties *)

(** ** The definitions on concrete inputs *)

Example camel_key_pascal : camel_key "DocumentId" = "documentId".
Proof. reflexivity. Qed.

Example camel_key_not_a_letter : camel_key "_Id" = "_Id".
Proof. reflexivity. Qed.

Example dict_set_keeps_position :
  dict_set [("a", VInt 1); ("b", VInt 2)] "a" (VInt 3) = [("a", VInt 3); ("b", VInt 2)].
Proof. reflexivity. Qed.

Example py_str_of_int : py_str (VInt (-12)) = "-12".
Proof. reflexivity. Qed.

Example py_str_of_list :
  py_str (VList [VStr "a"; VNone; VBool true; VDict [("k", VInt 1)]])
  = "['a', None, True, {'k': 1}]".
Proof. reflexivity. Qed.

Example normalize_search_payload :
  _to_camel_case_keys
    (VDict [("Query", VStr "fox");
            ("Results", VList [VDict [("DocumentId", VStr "d1"); ("Score", VInt 2)]])])
  = VDict [("query", VStr "fox");
           ("results", VList [VDict [("documentId", VStr "d1"); ("score", VInt 2);
                                     ("id", VStr "d1")]])].
Proof. reflexivity. Qed.

Example rstrip_slash_endpoint : rstrip_slash "http://localhost:8080//" = "http://localhost:8080".
Proof. reflexivity. Qed.

Example fallback_for_plain_text :
  handle_payload (fallback_payload (mkResponse None false 502 "Bad Gateway"))
  = Raises (RaisedVerbexError
              (api_error (ApiResponse.from_dict
                            [("success", VBool false); ("statusCode", VInt 502);
                             ("data", VStr "Bad Gateway")]))).
Proof. reflexivity. Qed.

Example status_as_text_is_a_type_error :
  handle_payload (VDict [("statusCode", VStr "500")]) = Raises RaisedTypeError.
Proof. reflexivity. Qed.

Example search_body_without_filters :
  search_data "fox" 100 (Some []) None = [("Query", VStr "fox"); ("MaxResults", VInt 100)].
Proof. reflexivity. Qed.

(** ** Keys and dict assignment *)

Lemma lower_char_idem (c : ascii) : lower_char (lower_char c) = lower_char c.
Proof.
  destruct c as [b0 b1 b2 b3 b4 b5 b6 b7].
  destruct b0, b1, b2, b3, b4, b5, b6, b7; reflexivity.
Qed.

Lemma camel_key_idem (k : string) : camel_key (camel_key k) = camel_key k.
Proof.
  destruct k as [|c rest]; simpl; [reflexivity|].
  now rewrite lower_char_idem.
Qed.

Lemma dict_mem_keys (d : dict) (k : string) :
  dict_mem d k = string_in k (dict_keys d).
Proof.
  unfold dict_mem.
  induction d as [|[k' v] rest IH]; simpl; [reflexivity|].
  destruct (String.eqb k' k); simpl; [reflexivity | exact IH].
Qed.

Lemma dict_set_absent (d : dict) (k : string) (v : value) :
  dict_mem d k = false -> dict_set d k v = (d ++ [(k, v)])%list.
Proof.
  rewrite dict_mem_keys.
  induction d as [|[k' v'] rest IH]; simpl; [reflexivity|].
  destruct (String.eqb k' k); simpl; [discriminate|].
  intros H. now rewrite IH.
Qed.

Lemma dict_set_keys_present (d : dict) (k : string) (v : value) :
  dict_mem d k = true -> dict_keys (dict_set d k v) = dict_keys d.
Proof.
  rewrite dict_mem_keys.
  induction d as [|[k' v'] rest IH]; simpl; [discriminate|].
  destruct (String.eqb k' k); simpl; [reflexivity|].
  intros H. now rewrite IH.
Qed.

Lemma dict_lookup_set_same (d : dict) (k : string) (v : value) :
  dict_lookup (dict_set d k v) k = Some v.
Proof.
  induction d as [|[k' v'] rest IH]; simpl.
  - now rewrite String.eqb_refl.
  - destruct (String.eqb k' k) eqn:E; simpl; rewrite E; [reflexivity | exact IH].
Qed.

Lemma dict_lookup_set_other (d : dict) (k k' : string) (v : value) :
  k <> k' -> dict_lookup (dict_set d k v) k' = dict_lookup d k'.
Proof.
  intros Hne.
  induction d as [|[k0 v0] rest IH]; simpl.
  - destruct (String.eqb k k') eqn:E; [|reflexivity].
    apply String.eqb_eq in E. contradiction.
  - destruct (String.eqb k0 k) eqn:E; simpl.
    + apply String.eqb_eq in E. subst k0.
      destruct (String.eqb k k') eqn:E'; [|reflexivity].
      apply String.eqb_eq in E'. contradiction.
    + now rewrite IH.
Qed.

Lemma string_in_app (k : string) (l1 l2 : list string) :
  string_in k (l1 ++ l2) = string_in k l1 || string_in k l2.
Proof.
  induction l1 as [|k' l1 IH]; simpl; [reflexivity|].
  now rewrite IH, orb_assoc.
Qed.

Lemma distinct_snoc (l : list string) (k : string) :
  distinct l = true -> string_in k l = false -> distinct (l ++ [k]) = true.
Proof.
  induction l as [|k' l IH]; simpl; [reflexivity|].
  intros Hd Hin.
  apply andb_true_iff in Hd as [Hk' Hl].
  apply orb_false_iff in Hin as [Hne Hin].
  rewrite string_in_app. simpl.
  rewrite String.eqb_sym in Hne.
  apply negb_true_iff in Hk'. rewrite Hk', Hne. simpl.
  now apply IH.
Qed.

Lemma distinct_middle (l1 l2 : list string) (k : string) :
  distinct (l1 ++ k :: l2) = true -> string_in k l1 = false.
Proof.
  induction l1 as [|k' l1 IH]; simpl; [reflexivity|].
  intros Hd.
  apply andb_true_iff in Hd as [Hk' Hl].
  apply negb_true_iff in Hk'.
  rewrite string_in_app in Hk'. simpl in Hk'.
  apply orb_false_iff in Hk' as [_ Hk'].
  apply orb_false_iff in Hk' as [Hne _].
  rewrite String.eqb_sym in Hne. rewrite Hne. simpl.
  now apply IH.
Qed.

Lemma dict_set_distinct (d : dict) (k : string) (v : value) :
  distinct (dict_keys d) = true -> distinct (dict_keys (dict_set d k v)) = true.
Proof.
  intros Hd.
  destruct (dict_mem d k) eqn:E.
  - now rewrite dict_set_keys_present.
  - rewrite dict_set_absent by exact E.
    unfold dict_keys. rewrite map_app. simpl.
    apply distinct_snoc; [exact Hd|].
    now rewrite <- dict_mem_keys.
Qed.

Lemma dict_set_Forall (P : string * value -> Prop) (d : dict) (k : string) (v : value) :
  Forall P d -> P (k, v) -> Forall P (dict_set d k v).
Proof.
  intros Hd Hv.
  induction Hd as [|[k' v'] rest Hx Hrest IH]; simpl.
  - constructor; [exact Hv | constructor].
  - destruct (String.eqb k' k) eqn:E; constructor; auto.
    apply String.eqb_eq in E. now subst k'.
Qed.

(** ** The normaliser *)

Lemma normalize_dict (d : dict) :
  _to_camel_case_keys (VDict d) = VDict (add_aliases (camel_loop d [])).
Proof. reflexivity. Qed.

Lemma normalize_list (l : list value) :
  _to_camel_case_keys (VList l) = VList (map _to_camel_case_keys l).
Proof. reflexivity. Qed.

Lemma camel_loop_shape (items : list (string * value)) :
  Forall (fun kv => normalized (_to_camel_case_keys (snd kv))) items ->
  forall acc,
    distinct (dict_keys acc) = true -> Forall entry_ok acc ->
    distinct (dict_keys (camel_loop items acc)) = true
    /\ Forall entry_ok (camel_loop items acc).
Proof.
  induction 1 as [|[k x] rest Hx Hrest IH]; intros acc Hd Hok; simpl.
  - split; assumption.
  - apply IH.
    + now apply dict_set_distinct.
    + apply dict_set_Forall; [exact Hok|].
      split; simpl; [apply camel_key_idem | exact Hx].
Qed.

Lemma add_aliases_shape (result : dict) :
  distinct (dict_keys result) = true -> Forall entry_ok result ->
  normalized (VDict (add_aliases result)).
Proof.
  intros Hd Hok. unfold add_aliases.
  destruct (dict_mem result "documentId" && negb (dict_mem result "id")) eqn:E.
  - constructor.
    + now apply dict_set_distinct.
    + apply dict_set_Forall; [exact Hok|].
      split; [reflexivity | constructor].
    + intros _. unfold dict_mem. now rewrite dict_lookup_set_same.
  - constructor; [exact Hd | exact Hok |].
    intros Hdoc. rewrite Hdoc in E. simpl in E.
    now apply negb_false_iff in E.
Qed.

Lemma normalize_normalized (v : value) : normalized (_to_camel_case_keys v).
Proof.
  induction v as [| b | z | f | s | l IH | d IH] using value_ind;
    try (now constructor).
  - rewrite normalize_list. constructor.
    induction IH; simpl; constructor; assumption.
  - rewrite normalize_dict.
    destruct (camel_loop_shape d IH [] eq_refl (Forall_nil _)) as [Hd Hok].
    now apply add_aliases_shape.
Qed.

Lemma camel_loop_fixed (items : list (string * value)) :
  Forall (fun kv => camel_key (fst kv) = fst kv
                    /\ _to_camel_case_keys (snd kv) = snd kv) items ->
  forall acc,
    distinct (dict_keys (acc ++ items)%list) = true ->
    camel_loop items acc = (acc ++ items)%list.
Proof.
  induction 1 as [|[k x] rest [Hk Hx] Hrest IH]; intros acc Hd; simpl.
  - now rewrite app_nil_r.
  - simpl in Hk, Hx. rewrite Hk, Hx.
    assert (Hnew : dict_mem acc k = false).
    { rewrite dict_mem_keys. unfold dict_keys in Hd. rewrite map_app in Hd.
      simpl in Hd. now apply distinct_middle in Hd. }
    rewrite dict_set_absent by exact Hnew.
    rewrite IH; rewrite <- app_assoc; [reflexivity | exact Hd].
Qed.

Lemma normalized_fixed (v : value) :
  normalized v -> _to_camel_case_keys v = v.
Proof.
  induction v as [| b | z | f | s | l IH | d IH] using value_ind;
    intros Hn; try reflexivity.
  - rewrite normalize_list. f_equal.
    inversion Hn as [| | | | | l' Hall |]; subst. clear Hn.
    induction IH as [|x rest Hx Hrest IHrest]; simpl; [reflexivity|].
    inversion Hall; subst.
    rewrite Hx by assumption. f_equal. now apply IHrest.
  - rewrite normalize_dict.
    inversion Hn as [| | | | | | d' Hd Hok Hclosed]; subst.
    rewrite camel_loop_fixed; simpl; [| | exact Hd].
    + unfold add_aliases.
      destruct (dict_mem d "documentId") eqn:E; simpl; [|reflexivity].
      now rewrite (Hclosed eq_refl).
    + clear Hd Hclosed Hn.
      induction IH as [|kv rest Hx Hrest IHrest]; constructor.
      * inversion Hok as [|? ? [Hk Hv] ?]; subst. split; [exact Hk | now apply Hx].
      * apply IHrest. now inversion Hok.
Qed.

(** C3. Wire normalisation is idempotent: for every value built from
    mappings, sequences and scalars, normalising the normalised value gives
    the normalised value again. *)
Theorem normalize_idempotent (v : value) :
  _to_camel_case_keys (_to_camel_case_keys v) = _to_camel_case_keys v.
Proof.
  apply normalized_fixed, normalize_normalized.
Qed.

(** C6, as stated, fails: a mapping whose keys [Name] and [name] meet after
    the rewrite comes back with one entry, not with the two of the tree the
    claim describes. *)
Lemma normalize_merges_colliding_keys :
  _to_camel_case_keys colliding_payload = VDict [("name", VStr "second")]
  /\ rename_keys colliding_payload
     = VDict [("name", VStr "first"); ("name", VStr "second")]
  /\ _to_camel_case_keys colliding_payload <> rename_keys colliding_payload.
Proof.
  repeat split; discriminate.
Qed.

(** *** The normaliser over any text operations *)

Lemma normalize_with_dict (py : builtins) (d : dict) :
  _to_camel_case_keys_with py (VDict d)
  = VDict (add_aliases_with py (camel_loop_with py d [])).
Proof. reflexivity. Qed.

Lemma normalize_with_list (py : builtins) (l : list value) :
  _to_camel_case_keys_with py (VList l) = VList (map (_to_camel_case_keys_with py) l).
Proof. reflexivity. Qed.

Lemma add_aliases_with_append (py : builtins) (result : dict) :
  add_aliases_with py result = append_alias py result.
Proof.
  unfold add_aliases_with, append_alias.
  destruct (dict_mem result "documentId"); simpl; [|reflexivity].
  destruct (dict_mem result "id") eqn:E; simpl; [reflexivity|].
  now apply dict_set_absent.
Qed.

Lemma collision_free_dict (py : builtins) (d : dict) :
  collision_free py (VDict d) = true ->
  distinct (map (camel_key_with py) (dict_keys d)) = true
  /\ Forall (fun kv => collision_free py (snd kv) = true) d.
Proof.
  simpl. intros H. apply andb_true_iff in H as [Hd Hall].
  split; [exact Hd|]. clear Hd.
  induction d as [|[k x] rest IH]; constructor.
  - simpl. now apply andb_true_iff in Hall as [Hx _].
  - apply IH. now apply andb_true_iff in Hall as [_ Hrest].
Qed.

Lemma collision_free_list (py : builtins) (l : list value) :
  collision_free py (VList l) = true -> Forall (fun x => collision_free py x = true) l.
Proof.
  simpl. induction l as [|x rest IH]; intros H; constructor.
  - now apply andb_true_iff in H as [Hx _].
  - apply IH. now apply andb_true_iff in H as [_ Hrest].
Qed.

Lemma rename_keys_alias_dict (py : builtins) (d : dict) :
  rename_keys_alias py (VDict d) = VDict (append_alias py (rename_entries py d)).
Proof. reflexivity. Qed.

Lemma camel_loop_with_rename (py : builtins) (items : list (string * value)) :
  Forall (fun kv => _to_camel_case_keys_with py (snd kv) = rename_keys_alias py (snd kv))
    items ->
  forall acc,
    distinct (dict_keys acc ++ map (camel_key_with py) (dict_keys items))%list = true ->
    camel_loop_with py items acc = (acc ++ rename_entries py items)%list.
Proof.
  induction 1 as [|[k x] rest Hx Hrest IH]; intros acc Hd; simpl.
  - now rewrite app_nil_r.
  - simpl in Hx, Hd. rewrite Hx.
    assert (Hnew : dict_mem acc (camel_key_with py k) = false).
    { rewrite dict_mem_keys. now apply distinct_middle in Hd. }
    rewrite dict_set_absent by exact Hnew.
    rewrite IH.
    + now rewrite <- app_assoc.
    + unfold dict_keys in *. rewrite map_app, <- app_assoc. exact Hd.
Qed.

Lemma normalize_with_rename (py : builtins) (v : value) :
  collision_free py v = true ->
  _to_camel_case_keys_with py v = rename_keys_alias py v.
Proof.
  induction v as [| b | z | f | s | l IH | d IH] using value_ind;
    intros Hfree; try reflexivity.
  - apply collision_free_list in Hfree.
    rewrite normalize_with_list. simpl. f_equal.
    induction IH as [|x rest Hx Hrest IHrest]; simpl; [reflexivity|].
    inversion Hfree; subst.
    rewrite Hx by assumption. f_equal. now apply IHrest.
  - apply collision_free_dict in Hfree as [Hd Hall].
    rewrite normalize_with_dict, rename_keys_alias_dict, add_aliases_with_append.
    rewrite camel_loop_with_rename; [reflexivity | | exact Hd].
    clear Hd.
    induction IH as [|kv rest Hx Hrest IHrest]; constructor.
    + apply Hx. now inversion Hall.
    + apply IHrest. now inversion Hall.
Qed.

Lemma ascii_camel_key (key : string) : camel_key_with ascii_builtins key = camel_key key.
Proof. destruct key; reflexivity. Qed.

Lemma ascii_camel_loop (items : list (string * value)) :
  Forall (fun kv => _to_camel_case_keys_with ascii_builtins (snd kv)
                    = _to_camel_case_keys (snd kv)) items ->
  forall acc, camel_loop_with ascii_builtins items acc = camel_loop items acc.
Proof.
  induction 1 as [|[k x] rest Hx Hrest IH]; intros acc; simpl; [reflexivity|].
  simpl in Hx. now rewrite Hx, ascii_camel_key, IH.
Qed.

(** On the ASCII text operations the general normaliser is
    [_to_camel_case_keys]. *)
Lemma ascii_builtins_agree (v : value) :
  _to_camel_case_keys_with ascii_builtins v = _to_camel_case_keys v.
Proof.
  induction v as [| b | z | f | s | l IH | d IH] using value_ind; try reflexivity.
  - rewrite normalize_with_list, normalize_list. f_equal.
    induction IH as [|x rest Hx Hrest IHrest]; simpl; [reflexivity|].
    now rewrite Hx, IHrest.
  - rewrite normalize_with_dict, normalize_dict.
    now rewrite (ascii_camel_loop d IH []).
Qed.

(** C6, amended.  For every tree in which no mapping holds two keys that
    become equal once their first character is lowercased, the normaliser
    returns the tree of the same shape with every mapping key rewritten to
    [key[0].lower() + key[1:]], recursively through nested mappings and
    every sequence element, the order of entries and elements kept and
    scalars unchanged, with the [id] alias appended after the last entry of
    a mapping that has [documentId] and no [id].  [None] gives [None], a
    scalar is returned as it is, and an empty key is left empty.  This
    holds whatever the interpreter's indexing, slicing, [lower] and [str]
    return. *)
Theorem normalize_structure (py : builtins) (v : value) :
  collision_free py v = true ->
  _to_camel_case_keys_with py v = rename_keys_alias py v
  /\ _to_camel_case_keys_with py VNone = VNone
  /\ (is_scalar v = true -> _to_camel_case_keys_with py v = v)
  /\ camel_key_with py "" = ""
  /\ (forall key, key <> "" ->
      camel_key_with py key = str_lower py (first_char py key) ++ rest_chars py key).
Proof.
  intros Hfree. split; [now apply normalize_with_rename|].
  split; [reflexivity|]. split; [|split; [reflexivity|]].
  - destruct v; simpl; intros Hs; try reflexivity; discriminate.
  - intros key Hkey. unfold camel_key_with.
    destruct (String.eqb key "") eqn:E; [|reflexivity].
    apply String.eqb_eq in E. contradiction.
Qed.

Lemma normalize_structure_witness :
  collision_free ascii_builtins nested_payload = true
  /\ _to_camel_case_keys_with ascii_builtins nested_payload
     = VDict [("query", VStr "fox");
              ("results", VList [VDict [("documentId", VInt 7); ("score", VInt 1);
                                        ("id", VStr "7")];
                                 VDict [("", VNone); ("id", VStr "kept")]]);
              ("totalCount", VInt 2)].
Proof.
  split; [reflexivity|].
  destruct (normalize_structure ascii_builtins nested_payload eq_refl) as [H _].
  rewrite H. reflexivity.
Defined.

(** C7. For every mapping the normaliser processes, with [result] the
    mapping after the keys are rewritten: when [result] has [documentId]
    and no [id], the output is [result] with an [id] entry added whose
    value is the string form [str(result['documentId'])] of the
    [documentId] value; when [result] has an [id] it is returned unchanged;
    when [result] has no [documentId] it is returned unchanged, so it gains
    no [id].  This holds whatever the interpreter's key rewrite and [str]
    return. *)
Theorem alias_rule (py : builtins) (d : dict) :
  let result := camel_loop_with py d [] in
  exists out,
    _to_camel_case_keys_with py (VDict d) = VDict out
    /\ (dict_mem result "documentId" = true -> dict_mem result "id" = false ->
        out = (result ++ [("id", VStr (str_of py (dict_get result "documentId")))])%list
        /\ dict_lookup out "id" = Some (VStr (str_of py (dict_get result "documentId"))))
    /\ (dict_mem result "id" = true -> out = result)
    /\ (dict_mem result "documentId" = false ->
        out = result /\ dict_mem out "id" = dict_mem result "id").
Proof.
  intros result. exists (add_aliases_with py result).
  split; [apply normalize_with_dict|].
  unfold add_aliases_with.
  split; [|split].
  - intros Hdoc Hid. rewrite Hdoc, Hid. simpl.
    split; [now apply dict_set_absent | apply dict_lookup_set_same].
  - intros Hid. rewrite Hid. simpl. now rewrite andb_false_r.
  - intros Hdoc. rewrite Hdoc. split; reflexivity.
Qed.

Lemma alias_rule_witness :
  _to_camel_case_keys_with ascii_builtins
    (VDict [("DocumentId", VInt 7); ("Score", VInt 1)])
  = VDict [("documentId", VInt 7); ("score", VInt 1); ("id", VStr "7")]
  /\ _to_camel_case_keys_with ascii_builtins
       (VDict [("DocumentId", VInt 7); ("Id", VStr "kept")])
     = VDict [("documentId", VInt 7); ("id", VStr "kept")].
Proof.
  split.
  - destruct (alias_rule ascii_builtins [("DocumentId", VInt 7); ("Score", VInt 1)])
      as [out [Hout [Hadd _]]].
    rewrite Hout. now destruct (Hadd eq_refl eq_refl) as [-> _].
  - destruct (alias_rule ascii_builtins [("DocumentId", VInt 7); ("Id", VStr "kept")])
      as [out [Hout [_ [Hkeep _]]]].
    rewrite Hout. now rewrite (Hkeep eq_refl).
Defined.

(** ** Envelope construction *)

Lemma from_dict_field (f : envelope_field) (d : dict) :
  field_of f (ApiResponse.from_dict d)
  = truthy_lookup d (capitalized_key f) (lowercase_key f) (field_default f).
Proof. destruct f; reflexivity. Qed.

Lemma truthy_lookup_cases (d : dict) (cap low : string) (default : value) :
  (truthy (dict_get d cap) = true -> truthy_lookup d cap low default = dict_get d cap)
  /\ (truthy (dict_get d cap) = false ->
      forall w, dict_lookup d low = Some w -> truthy_lookup d cap low default = w)
  /\ (truthy (dict_get d cap) = false ->
      dict_lookup d low = None -> truthy_lookup d cap low default = default).
Proof.
  unfold truthy_lookup, py_or, dict_get_default.
  repeat split.
  - intros ->. reflexivity.
  - intros -> w ->. reflexivity.
  - intros -> ->. reflexivity.
Qed.

Lemma handle_payload_dict (d : dict) :
  handle_payload (VDict d)
  = let env := ApiResponse.from_dict d in
    if truthy (ApiResponse.success env) then Returns env
    else match ge_400 (ApiResponse.status_code env) with
         | Some true => Raises (RaisedVerbexError (api_error env))
         | Some false => Returns env
         | None => Raises RaisedTypeError
         end.
Proof.
  unfold handle_payload. cbv zeta.
  destruct (truthy (ApiResponse.success (ApiResponse.from_dict d))); reflexivity.
Qed.

(** C1, as stated, fails: a payload that says success together with
    status 500 becomes an envelope with [success] true and [statusCode]
    500, and the client returns that envelope. *)
Lemma envelope_success_with_status_500 :
  ApiResponse.success (ApiResponse.from_dict success_with_server_error) = VBool true
  /\ ApiResponse.status_code (ApiResponse.from_dict success_with_server_error) = VInt 500
  /\ handle_payload (VDict success_with_server_error)
     = Returns (ApiResponse.from_dict success_with_server_error)
  /\ ~ envelope_invariant
         (ApiResponse.success (ApiResponse.from_dict success_with_server_error))
         (ApiResponse.status_code (ApiResponse.from_dict success_with_server_error)).
Proof.
  repeat split.
  intros [H _]. specialize (H eq_refl). discriminate.
Qed.

(** C1, amended.  Envelope construction takes [success] and [statusCode]
    from the payload independently of one another ([Success], else
    [success], else false; [StatusCode], else [statusCode], else 0) and
    relates them in no way: the envelope satisfies "statusCode >= 400
    implies success false, success true implies statusCode < 400" exactly
    when the two values the payload supplies do.  Of the envelopes a
    request hands over, one carried by a [VerbexError] has a falsy
    [success] and a [statusCode] >= 400, and a returned one with
    [statusCode] >= 400 has a truthy [success]. *)
Theorem envelope_invariant_mirrors_payload (d : dict) :
  let env := ApiResponse.from_dict d in
  ApiResponse.success env = truthy_lookup d "Success" "success" (VBool false)
  /\ ApiResponse.status_code env = truthy_lookup d "StatusCode" "statusCode" (VInt 0)
  /\ (envelope_invariant (ApiResponse.success env) (ApiResponse.status_code env)
      <-> envelope_invariant
            (truthy_lookup d "Success" "success" (VBool false))
            (truthy_lookup d "StatusCode" "statusCode" (VInt 0)))
  /\ (forall e carried,
        handle_payload (VDict d) = Raises (RaisedVerbexError e) ->
        VerbexError.response e = Some carried ->
        carried = env
        /\ truthy (ApiResponse.success carried) = false
        /\ ge_400 (ApiResponse.status_code carried) = Some true)
  /\ (forall returned,
        handle_payload (VDict d) = Returns returned ->
        ge_400 (ApiResponse.status_code returned) = Some true ->
        truthy (ApiResponse.success returned) = true).
Proof.
  cbv zeta. split; [reflexivity|]. split; [reflexivity|].
  split; [split; intros H; exact H|].
  rewrite handle_payload_dict. cbv zeta.
  destruct (truthy (ApiResponse.success (ApiResponse.from_dict d))) eqn:Hs.
  - split; [discriminate|].
    intros returned H _. inversion H; subst. exact Hs.
  - destruct (ge_400 (ApiResponse.status_code (ApiResponse.from_dict d)))
      as [[|]|] eqn:Hc.
    + split; [|discriminate].
      intros e carried H Hr. inversion H; subst. simpl in Hr.
      inversion Hr; subst. now repeat split.
    + split; [discriminate|].
      intros returned H Hge. inversion H; subst. congruence.
    + split; discriminate.
Qed.

Lemma envelope_invariant_mirrors_payload_witness :
  truthy (ApiResponse.success (ApiResponse.from_dict not_found_payload)) = false
  /\ ge_400 (ApiResponse.status_code (ApiResponse.from_dict not_found_payload))
     = Some true.
Proof.
  destruct (envelope_invariant_mirrors_payload not_found_payload)
    as [_ [_ [_ [H _]]]].
  destruct (H (api_error (ApiResponse.from_dict not_found_payload))
              (ApiResponse.from_dict not_found_payload) eq_refl eq_refl)
    as [_ [Hs Hc]].
  split; [exact Hs | exact Hc].
Defined.

(** C4, as stated, fails: with [Success] present and false and [success]
    true the envelope takes the lowercase value, and a present [TotalCount]
    of 0 is dropped for the absent lowercase key's [None]. *)
Lemma from_dict_ignores_falsy_capitalized :
  dict_lookup mixed_casing_payload "Success" = Some (VBool false)
  /\ ApiResponse.success (ApiResponse.from_dict mixed_casing_payload) = VBool true
  /\ presence_lookup mixed_casing_payload "Success" "success" (VBool false) = VBool false
  /\ dict_lookup mixed_casing_payload "TotalCount" = Some (VInt 0)
  /\ ApiResponse.total_count (ApiResponse.from_dict mixed_casing_payload) = VNone
  /\ presence_lookup mixed_casing_payload "TotalCount" "totalCount" VNone = VInt 0.
Proof. repeat split. Qed.

(** C4, amended.  For every envelope field ([guid], [success],
    [timestampUtc], [statusCode], [errorMessage], [totalCount],
    [processingTimeMs]; and the raw [data] before normalisation), envelope
    construction uses the value under the capitalized key whenever that
    value is truthy; when the capitalized key is absent or holds a falsy
    value it uses the value under the lowercase key if that key is
    present, and otherwise the default ([success]: false, [statusCode]: 0,
    the others [None]). *)
Theorem from_dict_truthy_lookup (f : envelope_field) (d : dict) :
  let cap := dict_get d (capitalized_key f) in
  let got := field_of f (ApiResponse.from_dict d) in
  (truthy cap = true -> got = cap)
  /\ (truthy cap = false ->
      forall w, dict_lookup d (lowercase_key f) = Some w -> got = w)
  /\ (truthy cap = false -> dict_lookup d (lowercase_key f) = None ->
      got = field_default f)
  /\ ApiResponse.data (ApiResponse.from_dict d)
     = (let raw_data := truthy_lookup d "Data" "data" VNone in
        if truthy raw_data then _to_camel_case_keys raw_data else VNone).
Proof.
  cbv zeta. rewrite from_dict_field.
  destruct (truthy_lookup_cases d (capitalized_key f) (lowercase_key f) (field_default f))
    as [H1 [H2 H3]].
  repeat split; assumption.
Qed.

Lemma from_dict_truthy_lookup_witness :
  ApiResponse.success (ApiResponse.from_dict lowercase_payload) = VBool true
  /\ ApiResponse.total_count (ApiResponse.from_dict lowercase_payload) = VNone.
Proof.
  split.
  - destruct (from_dict_truthy_lookup FSuccess lowercase_payload) as [_ [H _]].
    exact (H eq_refl (VBool true) eq_refl).
  - destruct (from_dict_truthy_lookup FTotalCount lowercase_payload) as [_ [_ [H _]]].
    exact (H eq_refl eq_refl).
Defined.

Lemma truthy_normalize_not_none (v : value) :
  truthy v = true -> _to_camel_case_keys v <> VNone.
Proof.
  destruct v; simpl; intros H; discriminate.
Qed.

(** C5, as stated, fails: the payload holds the value [[]] under [Data],
    the normaliser maps [[]] to [[]], and the envelope's [data] is [None]. *)
Lemma from_dict_drops_empty_data :
  dict_lookup empty_data_payload "Data" = Some (VList [])
  /\ _to_camel_case_keys (VList []) = VList []
  /\ ApiResponse.data (ApiResponse.from_dict empty_data_payload) = VNone.
Proof. repeat split. Qed.

(** C5, amended.  For every input payload, the envelope's [data] is [None]
    exactly when neither [Data] nor [data] holds a truthy value (absent,
    [None], false, zero, or an empty string, list or mapping); when [Data]
    holds a truthy value, [data] is the normaliser applied to it; when it
    does not and [data] holds a truthy value, [data] is the normaliser
    applied to that one. *)
Theorem from_dict_data (d : dict) :
  let env := ApiResponse.from_dict d in
  (truthy (dict_get d "Data") = true ->
   ApiResponse.data env = _to_camel_case_keys (dict_get d "Data"))
  /\ (truthy (dict_get d "Data") = false -> truthy (dict_get d "data") = true ->
      ApiResponse.data env = _to_camel_case_keys (dict_get d "data"))
  /\ (ApiResponse.data env = VNone
      <-> truthy (dict_get d "Data") = false /\ truthy (dict_get d "data") = false).
Proof.
  cbv zeta. unfold ApiResponse.from_dict, py_or. simpl.
  destruct (truthy (dict_get d "Data")) eqn:Hcap.
  - rewrite Hcap.
    split; [reflexivity|]. split; [discriminate|].
    split; [|intros [H _]; discriminate].
    intros H. now apply truthy_normalize_not_none in H.
  - destruct (truthy (dict_get d "data")) eqn:Hlow.
    + split; [discriminate|]. split; [reflexivity|].
      split; [|intros [_ H]; discriminate].
      intros H. now apply truthy_normalize_not_none in H.
    + split; [discriminate|]. split; [discriminate|].
      split; [now split | reflexivity].
Qed.

Lemma from_dict_data_witness :
  ApiResponse.data (ApiResponse.from_dict lowercase_payload)
  = VDict [("token", VStr "abc")].
Proof.
  destruct (from_dict_data lowercase_payload) as [_ [H _]].
  rewrite (H eq_refl eq_refl). reflexivity.
Defined.

(** ** Client operations *)

Ltac unfold_operations :=
  unfold call, health_check, root_health_check, login, validate_token,
    list_indices, create_index, get_index, delete_index, update_index_labels,
    update_index_tags, list_documents, add_document, get_document, delete_document,
    update_document_labels, update_document_tags, search, _make_request;
  cbn [String.eqb Ascii.eqb Bool.eqb].

Lemma call_responds (self : VerbexClient) (r : Response) (op : operation) :
  (forall req, _session self req = Responds r) ->
  call self op = handle_payload (response_data r).
Proof.
  intros H. destruct op; unfold_operations; rewrite H; reflexivity.
Qed.

Lemma handle_payload_returns (d : dict) (env : ApiResponse.t) :
  handle_payload (VDict d) = Returns env -> env = ApiResponse.from_dict d.
Proof.
  unfold handle_payload.
  destruct (negb (truthy (ApiResponse.success (ApiResponse.from_dict d)))).
  - destruct (ge_400 (ApiResponse.status_code (ApiResponse.from_dict d))) as [[|]|];
      intros H; now inversion H.
  - intros H. now inversion H.
Qed.

(** C2, as stated, fails: for a payload with [Success] false and status
    200 the operation returns the envelope, and that envelope's [success]
    flag is false. *)
Lemma call_returns_unsuccessful_envelope :
  call (client_answering "http://localhost:8080" "verbexadmin"
          (Responds (json_response 200 (VDict failure_with_ok_status))))
       Op_health_check
  = Returns (ApiResponse.from_dict failure_with_ok_status)
  /\ ApiResponse.success (ApiResponse.from_dict failure_with_ok_status) = VBool false.
Proof. split; reflexivity. Qed.

(** C2, amended.  For every client operation and every decoded server
    payload (the body, or the fallback built when it is not JSON) that is
    a mapping: the operation raises [VerbexError] exactly
    when the resulting envelope has a falsy [success] and a numeric
    [statusCode] >= 400, and the error then carries that status code and
    the envelope; it returns the envelope exactly when [success] is truthy
    or [statusCode] is a number below 400.  A returned envelope may thus
    have [success] false, namely when its [statusCode] is below 400. *)
Theorem call_raises_or_returns
    (self : VerbexClient) (op : operation) (r : Response) (d : dict) :
  (forall req, _session self req = Responds r) ->
  response_data r = VDict d ->
  let env := ApiResponse.from_dict d in
  ((exists e, call self op = Raises (RaisedVerbexError e))
   <-> truthy (ApiResponse.success env) = false
       /\ ge_400 (ApiResponse.status_code env) = Some true)
  /\ (truthy (ApiResponse.success env) = false ->
      ge_400 (ApiResponse.status_code env) = Some true ->
      call self op = Raises (RaisedVerbexError (api_error env)))
  /\ (call self op = Returns env
      <-> truthy (ApiResponse.success env) = true
          \/ ge_400 (ApiResponse.status_code env) = Some false)
  /\ (forall env', call self op = Returns env' -> env' = env).
Proof.
  intros Hsession Hd env.
  rewrite (call_responds self r op Hsession), Hd, handle_payload_dict.
  cbv zeta. fold env.
  destruct (truthy (ApiResponse.success env)) eqn:Hs.
  - split; [split; [intros [e H]; discriminate | intros [H _]; discriminate]|].
    split; [discriminate|].
    split; [split; [now left | reflexivity]|].
    intros env' H. now inversion H.
  - destruct (ge_400 (ApiResponse.status_code env)) as [[|]|] eqn:Hc.
    + split; [split; [intros _; split; reflexivity | intros _; eexists; reflexivity]|].
      split; [reflexivity|].
      split; [split; [discriminate | intros [H|H]; discriminate]|].
      intros env' H. discriminate.
    + split; [split; [intros [e H]; discriminate | intros [_ H]; discriminate]|].
      split; [discriminate|].
      split; [split; [now right | reflexivity]|].
      intros env' H. now inversion H.
    + split; [split; [intros [e H]; discriminate | intros [_ H]; discriminate]|].
      split; [discriminate|].
      split; [split; [discriminate | intros [H|H]; discriminate]|].
      intros env' H. discriminate.
Qed.

Lemma call_raises_or_returns_witness :
  call (client_answering "http://localhost:8080/" "verbexadmin"
          (Responds (json_response 404 (VDict not_found_payload))))
       (Op_get_index "non-existent-index-12345")
  = Raises (RaisedVerbexError
              {| VerbexError.message := VStr "Index not found";
                 VerbexError.status_code := VInt 404;
                 VerbexError.response := Some (ApiResponse.from_dict not_found_payload) |}).
Proof.
  destruct (call_raises_or_returns
              (client_answering "http://localhost:8080/" "verbexadmin"
                 (Responds (json_response 404 (VDict not_found_payload))))
              (Op_get_index "non-existent-index-12345")
              (json_response 404 (VDict not_found_payload)) not_found_payload
              (fun _ => eq_refl) eq_refl)
    as [_ [H _]].
  exact (H eq_refl eq_refl).
Defined.

Ltac session_raises H :=
  match goal with
  | |- context [_session ?self ?req] =>
      let text := fresh "text" in
      let Ht := fresh "Ht" in
      destruct (H req) as [text Ht]; rewrite Ht; exists req, text;
      split; [exact Ht | reflexivity]
  end.

Lemma call_transport_failure (self : VerbexClient) (op : operation) :
  (forall req, exists text, _session self req = RequestException text) ->
  exists req text,
    _session self req = RequestException text
    /\ call self op = Raises (transport_error text).
Proof.
  intros H.
  destruct op; unfold_operations; session_raises H.
Qed.

Ltac helper_raises self H op :=
  let req := fresh "req" in
  let text := fresh "text" in
  let Hs := fresh "Hs" in
  let Hc := fresh "Hc" in
  destruct (call_transport_failure self op H) as [req [text [Hs Hc]]];
  cbn [call] in Hc; rewrite Hc; exists req, text; split; [exact Hs | reflexivity].

(** C8. Whenever the transport raises its own exception type on the
    request, every client operation, and every helper built on one, raises
    [VerbexError] with status code 0 and the message "Request failed: "
    followed by the exception's text; nothing else is raised and nothing
    is returned. *)
Theorem transport_failure_mapped (self : VerbexClient) :
  (forall req, exists text, _session self req = RequestException text) ->
  (forall op, exists req text,
      _session self req = RequestException text
      /\ call self op = Raises (transport_error text))
  /\ (forall h, exists req text,
        _session self req = RequestException text
        /\ call_helper self h = Raises (transport_error text))
  /\ (forall text, exists e,
        transport_error text = RaisedVerbexError e
        /\ VerbexError.status_code e = VInt 0
        /\ VerbexError.message e = VStr ("Request failed: " ++ text)).
Proof.
  intros H. split; [|split].
  - intros op. now apply call_transport_failure.
  - intros h.
    destruct h; unfold call_helper, get_indices, get_index_info, get_documents,
      get_document_info, search_documents.
    + helper_raises self H Op_list_indices.
    + helper_raises self H (Op_get_index index_id).
    + helper_raises self H (Op_list_documents index_id).
    + helper_raises self H (Op_get_document index_id document_id).
    + helper_raises self H (Op_search index_id query max_results labels tags).
  - intros text. eexists. repeat split.
Qed.

Lemma transport_failure_mapped_witness :
  exists req text,
    _session (client_answering "http://localhost:8080" "verbexadmin"
                (RequestException "Connection refused")) req
    = RequestException text
    /\ call (client_answering "http://localhost:8080" "verbexadmin"
               (RequestException "Connection refused"))
            (Op_search "idx1" "fox" 100 None None)
       = Raises (transport_error text).
Proof.
  apply transport_failure_mapped.
  intros req. exists "Connection refused". reflexivity.
Defined.

(** ** Request bodies *)

(** C10. Optional request parameters are tested for truthiness, not for
    being [None]: in [create_index] an empty-string name is replaced by the
    index id and an empty-string description by the empty default; in
    [add_document] an empty-string document id is left out of the body;
    and empty label lists and empty tag mappings are left out of the
    [create_index] and [add_document] bodies exactly like absent ones.
    A non-empty name, description, document id, label list or tag mapping
    is sent as given: the last three conjuncts give the whole body of
    [create_index], [add_document] and [search] for every choice of the
    optional parameters. *)
Theorem optional_parameters_by_truthiness
    (id content query storage_mode : string)
    (name description repository_filename : option string)
    (document_id : option string)
    (in_memory enable_lemmatizer enable_stop_word_remover : bool)
    (min_token_length max_token_length max_results : Z)
    (labels : option (list string)) (tags : option (list (string * string))) :
  let args n d l t :=
    mkCreateIndexArgs id n d repository_filename in_memory storage_mode
      enable_lemmatizer enable_stop_word_remover min_token_length max_token_length l t in
  let sent_labels := if nonempty labels then [("Labels", of_labels labels)] else [] in
  let sent_tags := if nonempty tags then [("Tags", of_tags tags)] else [] in
  dict_lookup (create_index_data (args (Some "") description labels tags)) "Name"
    = Some (VStr id)
  /\ create_index_data (args (Some "") description labels tags)
     = create_index_data (args None description labels tags)
  /\ dict_lookup (create_index_data (args name (Some "") labels tags)) "Description"
     = Some (VStr "")
  /\ create_index_data (args name description (Some []) tags)
     = create_index_data (args name description None tags)
  /\ create_index_data (args name description labels (Some []))
     = create_index_data (args name description labels None)
  /\ add_document_data content (Some "") labels tags
     = add_document_data content None labels tags
  /\ dict_mem (add_document_data content (Some "") labels tags) "Id" = false
  /\ add_document_data content document_id (Some []) tags
     = add_document_data content document_id None tags
  /\ add_document_data content document_id labels (Some [])
     = add_document_data content document_id labels None
  /\ dict_mem (create_index_data (args name description (Some []) (Some []))) "Labels"
     = false
  /\ dict_mem (create_index_data (args name description (Some []) (Some []))) "Tags"
     = false
  /\ dict_mem (add_document_data content document_id (Some []) (Some [])) "Labels"
     = false
  /\ dict_mem (add_document_data content document_id (Some []) (Some [])) "Tags"
     = false
  /\ create_index_data (args name description labels tags)
     = ([("Id", VStr id);
         ("Name", VStr (match name with
                        | Some (String c rest) => String c rest
                        | _ => id
                        end));
         ("Description", VStr (match description with
                               | Some (String c rest) => String c rest
                               | _ => ""
                               end));
         ("RepositoryFilename", VStr (match repository_filename with
                                      | Some (String c rest) => String c rest
                                      | _ => id ++ ".db"
                                      end));
         ("InMemory", VBool in_memory);
         ("StorageMode", VStr storage_mode);
         ("EnableLemmatizer", VBool enable_lemmatizer);
         ("EnableStopWordRemover", VBool enable_stop_word_remover);
         ("MinTokenLength", VInt min_token_length);
         ("MaxTokenLength", VInt max_token_length)]
        ++ sent_labels ++ sent_tags)%list
  /\ add_document_data content document_id labels tags
     = ([("Content", VStr content)]
        ++ (match document_id with
            | Some (String c rest) => [("Id", VStr (String c rest))]
            | _ => []
            end)
        ++ sent_labels ++ sent_tags)%list
  /\ search_data query max_results labels tags
     = ([("Query", VStr query); ("MaxResults", VInt max_results)]
        ++ sent_labels ++ sent_tags)%list.
Proof.
  cbv zeta.
  repeat split;
    destruct name as [[|c0 s0]|], description as [[|c1 s1]|],
      repository_filename as [[|c3 s3]|],
      document_id as [[|c2 s2]|], labels as [[|l ls]|], tags as [[|t ts]|];
    reflexivity.
Qed.

(** ** The harness *)

Section HarnessProperties.

Variable World : Type.
Variable test_fn : test_method -> World -> scenario_outcome * World.

Lemma run_scenarios_trace (todo : list (string * test_method)) :
  forall self : TestHarness World,
    let final := run_scenarios World test_fn self todo in
    map TestResult.name (_results final)
    = (map TestResult.name (_results self) ++ map fst todo)%list
    /\ map TestResult.passed (_results final)
       = (map TestResult.passed (_results self)
          ++ map scenario_passed (endings test_fn (world self) todo))%list.
Proof.
  induction todo as [|[name method] rest IH]; intros self; cbv zeta.
  - simpl. now rewrite !app_nil_r.
  - simpl. unfold _run_test.
    destruct (test_fn method (world self)) as [ending w'] eqn:E.
    destruct ending; simpl;
      match goal with
      | |- context [run_scenarios World test_fn ?h rest] =>
          destruct (IH h) as [Hn Hp]; rewrite Hn, Hp; simpl;
          rewrite !map_app, <- !app_assoc; split; reflexivity
      end.
Qed.

Lemma run_scenarios_counts (todo : list (string * test_method)) :
  forall self : TestHarness World,
    _failed self = count_failures (_results self) ->
    (_passed self + _failed self)%nat = List.length (_results self) ->
    let final := run_scenarios World test_fn self todo in
    _failed final = count_failures (_results final)
    /\ (_passed final + _failed final)%nat = List.length (_results final).
Proof.
  induction todo as [|[name method] rest IH]; intros self Hf Hp; cbv zeta.
  - split; assumption.
  - simpl. unfold _run_test.
    destruct (test_fn method (world self)) as [ending w'] eqn:E.
    destruct ending; simpl; apply IH; simpl;
      unfold count_failures in *; rewrite ?filter_app, ?length_app; simpl; lia.
Qed.

Lemma count_failures_zero (results : list TestResult.t) :
  count_failures results = 0%nat
  <-> Forall (fun r => TestResult.passed r = true) results.
Proof.
  unfold count_failures.
  induction results as [|r rest IH]; simpl.
  - split; [constructor | reflexivity].
  - destruct (TestResult.passed r) eqn:E; simpl.
    + rewrite IH. split; [now constructor | now inversion 1].
    + split; [discriminate|]. inversion 1; subst. congruence.
Qed.

Lemma all_passed_endings (es : list scenario_outcome) :
  Forall (fun b => b = true) (map scenario_passed es)
  <-> Forall (fun e => e = Completes) es.
Proof.
  induction es as [|e rest IH]; simpl.
  - split; constructor.
  - split; inversion 1; subst; constructor; try (now apply IH).
    + now destruct e.
    + reflexivity.
Qed.

End HarnessProperties.



(* ================================================================== *)
(** * Further properties of the client *)

(** ** Endpoint and requests *)

Lemma rstrip_slash_decompose (s : string) :
  exists n, s = rstrip_slash s ++ slashes n /\ ends_with_slash (rstrip_slash s) = false.
Proof.
  induction s as [|c rest [n [Hrest Hend]]]; [exists 0%nat; split; reflexivity|].
  simpl. destruct (Ascii.eqb c "/" && String.eqb (rstrip_slash rest) "") eqn:E.
  - apply andb_true_iff in E as [Hc Hr].
    apply Ascii.eqb_eq in Hc. apply String.eqb_eq in Hr. subst c.
    exists (S n). rewrite Hr in Hrest. simpl in *. now rewrite <- Hrest.
  - exists n. simpl. split; [now rewrite <- Hrest|].
    destruct (rstrip_slash rest) as [|c' r'] eqn:Er; [|exact Hend].
    simpl in E. rewrite andb_true_r in E. exact E.
Qed.

Lemma rstrip_slash_fixed (s : string) :
  ends_with_slash s = false -> rstrip_slash s = s.
Proof.
  induction s as [|c rest IH]; [reflexivity|].
  intros H. simpl.
  destruct rest as [|c' rest'].
  - simpl in *. now rewrite H.
  - rewrite IH by exact H.
    simpl. now rewrite andb_false_r.
Qed.

(** X1. The client stores the endpoint with every trailing slash removed
    and nothing else changed: the stored endpoint never ends with a
    slash, the given endpoint is the stored one followed by slashes only,
    and building a client from a stored endpoint stores it unchanged. *)
Theorem endpoint_without_trailing_slash
    (endpoint access_key : string) (session : transport) :
  let self := VerbexClient_init endpoint access_key session in
  ends_with_slash (_endpoint self) = false
  /\ (exists n, endpoint = _endpoint self ++ slashes n)
  /\ VerbexClient_init (_endpoint self) access_key session = self.
Proof.
  cbv zeta. unfold VerbexClient_init. simpl.
  destruct (rstrip_slash_decompose endpoint) as [n [Hs He]].
  split; [exact He|]. split; [now exists n|].
  now rewrite rstrip_slash_fixed.
Qed.

(** X2. A method other than [GET], [POST], [PUT] and [DELETE] (matched
    exactly, so [get] is one) makes [_make_request] raise [VerbexError]
    with the message "Unsupported HTTP method: " and the method, status
    code 0 and no envelope, whatever the session would answer. *)
Theorem unsupported_method_rejected
    (self : VerbexClient) (method path : string) (data : option value)
    (require_auth : bool) :
  is_supported_method method = false ->
  _make_request self method path data require_auth
  = Raises (RaisedVerbexError
              {| VerbexError.message := VStr ("Unsupported HTTP method: " ++ method);
                 VerbexError.status_code := VInt 0;
                 VerbexError.response := None |}).
Proof.
  unfold is_supported_method, _make_request. intros H.
  apply orb_false_iff in H as [H Hdelete].
  apply orb_false_iff in H as [H Hput].
  apply orb_false_iff in H as [Hget Hpost].
  now rewrite Hget, Hpost, Hput, Hdelete.
Qed.

Lemma unsupported_method_rejected_witness :
  _make_request
    (client_answering "http://localhost:8080" "verbexadmin"
       (Responds (json_response 200 (VDict []))))
    "get" "/v1.0/health" None false
  = Raises (RaisedVerbexError
              {| VerbexError.message := VStr "Unsupported HTTP method: get";
                 VerbexError.status_code := VInt 0;
                 VerbexError.response := None |}).
Proof.
  apply unsupported_method_rejected. reflexivity.
Defined.

Lemma call_request (self : VerbexClient) (op : operation) :
  call self op
  = respond (_session self (request_of (_endpoint self) (_access_key self) op)).
Proof. destruct op; reflexivity. Qed.

(** X3. Every operation consults the session once, with one request: the
    URL is the stored endpoint followed by the operation's path; the
    health probes and [login] carry no [Authorization] header and every
    other operation carries "Bearer " and the access key; a body is sent
    with [POST] and [PUT] only; and the result of the operation is what
    [_make_request] makes of the session's answer to that request. *)
Theorem operation_sends_one_request (self : VerbexClient) (op : operation) :
  let req := request_of (_endpoint self) (_access_key self) op in
  call self op = respond (_session self req)
  /\ req_url req = _endpoint self ++ snd (fst (fst (request_arguments op)))
  /\ req_headers req
     = match op with
       | Op_health_check | Op_root_health_check | Op_login _ _ => []
       | _ => [("Authorization", "Bearer " ++ _access_key self)]
       end
  /\ (req_json req <> None ->
      req_method req = "POST" \/ req_method req = "PUT")
  /\ is_supported_method (req_method req) = true.
Proof.
  cbv zeta. split; [apply call_request|].
  destruct op; repeat split; simpl; auto; intros H; now elim H.
Qed.

(** ** What a request raises and returns *)

Lemma call_answered (self : VerbexClient) (op : operation) (r : Response) :
  (forall req, _session self req = Responds r) ->
  call self op = handle_payload (response_data r).
Proof. intros H. now rewrite call_request, H. Qed.

(** X4. When the body of the response is not JSON, the envelope is built
    from the transport's own report: [success] is the response's [ok],
    [statusCode] its status code, [data] the body text ([None] for an
    empty body) and every other field [None].  The operation raises
    [VerbexError] with the message "Request failed with status " and the
    code when the response is not [ok] and its status is at least 400, and
    returns the envelope otherwise. *)
Theorem non_json_body_fallback (self : VerbexClient) (op : operation) (r : Response) :
  (forall req, _session self req = Responds r) ->
  resp_json r = None ->
  let text := resp_text r in
  let env :=
    {| ApiResponse.guid := VNone;
       ApiResponse.success := VBool (resp_ok r);
       ApiResponse.timestamp_utc := VNone;
       ApiResponse.status_code := VInt (resp_status_code r);
       ApiResponse.error_message := VNone;
       ApiResponse.data := if String.eqb text "" then VNone else VStr text;
       ApiResponse.total_count := VNone;
       ApiResponse.processing_time_ms := VNone;
       ApiResponse.raw_response :=
         [("success", VBool (resp_ok r));
          ("statusCode", VInt (resp_status_code r));
          ("data", if String.eqb text "" then VNone else VStr text)] |} in
  call self op
  = if negb (resp_ok r) && (400 <=? resp_status_code r)
    then Raises (RaisedVerbexError
                   {| VerbexError.message :=
                        VStr ("Request failed with status "
                              ++ int_str (resp_status_code r));
                      VerbexError.status_code := VInt (resp_status_code r);
                      VerbexError.response := Some env |})
    else Returns env.
Proof.
  intros Hsession Hjson. cbv zeta.
  rewrite (call_answered self op r Hsession).
  unfold response_data. rewrite Hjson.
  destruct r as [j ok status text]. simpl in *.
  unfold handle_payload, ApiResponse.from_dict, api_error. simpl.
  destruct ok; simpl.
  - destruct (String.eqb text "") eqn:E; simpl.
    + apply String.eqb_eq in E. subst text. simpl.
      destruct (status =? 0); reflexivity.
    + destruct text; [discriminate|]. simpl.
      destruct (status =? 0); reflexivity.
  - destruct (String.eqb text "") eqn:E; simpl.
    + apply String.eqb_eq in E. subst text. simpl.
      destruct (status =? 0) eqn:Z0; simpl.
      * apply Z.eqb_eq in Z0. subst status. reflexivity.
      * destruct (400 <=? status); reflexivity.
    + destruct text; [discriminate|]. simpl.
      destruct (status =? 0) eqn:Z0; simpl.
      * apply Z.eqb_eq in Z0. subst status. reflexivity.
      * destruct (400 <=? status); reflexivity.
Qed.

Lemma non_json_body_fallback_witness :
  call (client_answering "http://localhost:8080" "verbexadmin"
          (Responds (mkResponse None false 502 "Bad Gateway")))
       Op_list_indices
  = Raises (RaisedVerbexError
              {| VerbexError.message := VStr "Request failed with status 502";
                 VerbexError.status_code := VInt 502;
                 VerbexError.response :=
                   Some (ApiResponse.from_dict
                           [("success", VBool false); ("statusCode", VInt 502);
                            ("data", VStr "Bad Gateway")]) |}).
Proof.
  exact (non_json_body_fallback
           (client_answering "http://localhost:8080" "verbexadmin"
              (Responds (mkResponse None false 502 "Bad Gateway")))
           Op_list_indices (mkResponse None false 502 "Bad Gateway")
           (fun _ => eq_refl) eq_refl).
Defined.

Lemma api_error_message_truthy (env : ApiResponse.t) :
  truthy (VerbexError.message (api_error env)) = true.
Proof.
  unfold api_error, py_or. simpl.
  destruct (truthy (ApiResponse.error_message env)) eqn:E; [exact E | reflexivity].
Qed.

(** X5. Every [VerbexError] an operation raises has a non-empty (truthy)
    message and is of one of two kinds: a transport failure, with status
    code 0, no envelope and a message that starts with "Request failed: ";
    or an API failure, which carries the envelope, has the envelope's
    status code, a status code of at least 400, and an envelope whose
    [success] is falsy. *)
Theorem raised_error_kinds (self : VerbexClient) (op : operation) (e : VerbexError.t) :
  call self op = Raises (RaisedVerbexError e) ->
  truthy (VerbexError.message e) = true
  /\ ((VerbexError.response e = None
       /\ VerbexError.status_code e = VInt 0
       /\ exists text, VerbexError.message e = VStr ("Request failed: " ++ text))
      \/ (exists env,
           VerbexError.response e = Some env
           /\ VerbexError.status_code e = ApiResponse.status_code env
           /\ ge_400 (VerbexError.status_code e) = Some true
           /\ truthy (ApiResponse.success env) = false)).
Proof.
  rewrite call_request.
  destruct (_session self _) as [r | text]; simpl.
  - destruct (response_data r) as [| | | | | |d] eqn:Hd; try discriminate.
    rewrite handle_payload_dict. cbv zeta.
    destruct (truthy (ApiResponse.success (ApiResponse.from_dict d))) eqn:Hs;
      [discriminate|].
    destruct (ge_400 (ApiResponse.status_code (ApiResponse.from_dict d)))
      as [[|]|] eqn:Hc; try discriminate.
    intros H. inversion H; subst. split; [apply api_error_message_truthy|].
    right. exists (ApiResponse.from_dict d). now repeat split.
  - intros H. inversion H; subst. split; [reflexivity|].
    left. repeat split. now exists text.
Qed.

Lemma raised_error_kinds_witness :
  truthy (VStr "Index not found") = true
  /\ ge_400 (VInt 404) = Some true.
Proof.
  destruct (raised_error_kinds
              (client_answering "http://localhost:8080/" "verbexadmin"
                 (Responds (json_response 404 (VDict not_found_payload))))
              (Op_get_index "non-existent-index-12345")
              (api_error (ApiResponse.from_dict not_found_payload)) eq_refl)
    as [Hm [[Hnone _] | [env [Hr [Hsc [Hge _]]]]]].
  - discriminate.
  - split; [exact Hm | exact Hge].
Defined.

(** X6. When the server answers with a decoded body that the envelope
    construction handles within the interpreter's recursion limit, an
    operation raises [AttributeError] if and only if the body is not a
    mapping (a JSON list, string, number, boolean or null), and raises
    [TypeError] if and only if the body is a mapping whose [success] is
    falsy and whose [statusCode] cannot be compared with 400 (a string, a
    list, a mapping, or an explicit null under the lowercase key).  These
    two errors are not wrapped in [VerbexError].  Nothing is stated about
    other errors of the interpreter: the exhaustion of its resources on a
    very deeply nested body is not modelled. *)
Theorem interpreter_errors_escape (self : VerbexClient) (op : operation) (r : Response) :
  (forall req, _session self req = Responds r) ->
  (call self op = Raises RaisedAttributeError
   <-> forall d, response_data r <> VDict d)
  /\ (call self op = Raises RaisedTypeError
      <-> exists d,
            response_data r = VDict d
            /\ truthy (ApiResponse.success (ApiResponse.from_dict d)) = false
            /\ ge_400 (ApiResponse.status_code (ApiResponse.from_dict d)) = None).
Proof.
  intros Hsession. rewrite (call_answered self op r Hsession).
  destruct (response_data r) as [| b | z | f | s | l | d] eqn:Hd;
    try (split;
         [split; [intros _ d; discriminate | reflexivity]
         |split; [discriminate | intros [d [H _]]; discriminate]]).
  rewrite handle_payload_dict. cbv zeta.
  split.
  - split.
    + destruct (truthy (ApiResponse.success (ApiResponse.from_dict d)));
        [discriminate|].
      destruct (ge_400 (ApiResponse.status_code (ApiResponse.from_dict d)))
        as [[|]|]; discriminate.
    + intros H. now elim (H d).
  - destruct (truthy (ApiResponse.success (ApiResponse.from_dict d))) eqn:Hs.
    + split; [discriminate|].
      intros [d' [H [Hs' _]]]. inversion H; subst. congruence.
    + destruct (ge_400 (ApiResponse.status_code (ApiResponse.from_dict d)))
        as [[|]|] eqn:Hc.
      * split; [discriminate|].
        intros [d' [H [_ Hc']]]. inversion H; subst. congruence.
      * split; [discriminate|].
        intros [d' [H [_ Hc']]]. inversion H; subst. congruence.
      * split; [intros _; now exists d | reflexivity].
Qed.

Lemma interpreter_errors_escape_witness :
  call (client_answering "http://localhost:8080" "verbexadmin"
          (Responds (json_response 200 (VList []))))
       Op_list_indices
  = Raises RaisedAttributeError
  /\ call (client_answering "http://localhost:8080" "verbexadmin"
             (Responds (json_response 500 (VDict [("statusCode", VStr "500")]))))
          Op_list_indices
     = Raises RaisedTypeError.
Proof.
  split.
  - apply (proj1 (interpreter_errors_escape
                    (client_answering "http://localhost:8080" "verbexadmin"
                       (Responds (json_response 200 (VList []))))
                    Op_list_indices (json_response 200 (VList []))
                    (fun _ => eq_refl))).
    intros d. discriminate.
  - apply (proj2 (interpreter_errors_escape
                    (client_answering "http://localhost:8080" "verbexadmin"
                       (Responds (json_response 500
                                    (VDict [("statusCode", VStr "500")]))))
                    Op_list_indices
                    (json_response 500 (VDict [("statusCode", VStr "500")]))
                    (fun _ => eq_refl))).
    exists [("statusCode", VStr "500")]. repeat split.
Defined.

(** ** Request bodies *)

(** X7. The four update operations always send the collection they
    replace: the body is [{"Labels": labels}] or [{"Tags": tags}] with the
    given labels or tags, and with the empty list or the empty mapping when
    the argument is [None] or empty, so that an absent argument clears the
    labels or tags rather than leaving them. *)
Theorem update_sends_full_replacement
    (self : VerbexClient) (index_id document_id : string)
    (labels : option (list string)) (tags : option (list (string * string))) :
  let given_labels := VList (map VStr (match labels with Some l => l | None => [] end)) in
  let given_tags :=
    VDict (map (fun kv => (fst kv, VStr (snd kv)))
             (match tags with Some t => t | None => [] end)) in
  let auth := [("Authorization", "Bearer " ++ _access_key self)] in
  update_index_labels self index_id labels
  = respond (_session self
               (mkRequest "PUT" (_endpoint self ++ "/v1.0/indices/" ++ index_id ++ "/labels")
                  auth (Some (VDict [("Labels", given_labels)]))))
  /\ update_index_tags self index_id tags
     = respond (_session self
                  (mkRequest "PUT" (_endpoint self ++ "/v1.0/indices/" ++ index_id ++ "/tags")
                     auth (Some (VDict [("Tags", given_tags)]))))
  /\ update_document_labels self index_id document_id labels
     = respond (_session self
                  (mkRequest "PUT"
                     (_endpoint self ++ "/v1.0/indices/" ++ index_id ++ "/documents/"
                      ++ document_id ++ "/labels")
                     auth (Some (VDict [("Labels", given_labels)]))))
  /\ update_document_tags self index_id document_id tags
     = respond (_session self
                  (mkRequest "PUT"
                     (_endpoint self ++ "/v1.0/indices/" ++ index_id ++ "/documents/"
                      ++ document_id ++ "/tags")
                     auth (Some (VDict [("Tags", given_tags)])))).
Proof.
  cbv zeta.
  destruct labels as [[|l ls]|], tags as [[|t ts]|]; repeat split; reflexivity.
Qed.

(** X8. The body of [create_index] is a mapping with distinct keys: the
    ten fixed fields in the order of the source, then [Labels] if the
    labels are non-empty, then [Tags] if the tags are non-empty.  [Id] is
    the given id, and [RepositoryFilename] is the given file name, or the
    id followed by ".db" when the file name is [None] or empty. *)
Theorem create_index_body_shape (a : create_index_args) :
  let body := create_index_data a in
  dict_keys body
  = (["Id"; "Name"; "Description"; "RepositoryFilename"; "InMemory"; "StorageMode";
      "EnableLemmatizer"; "EnableStopWordRemover"; "MinTokenLength"; "MaxTokenLength"]
     ++ (if nonempty (ci_labels a) then ["Labels"] else [])
     ++ (if nonempty (ci_tags a) then ["Tags"] else []))%list
  /\ distinct (dict_keys body) = true
  /\ dict_lookup body "Id" = Some (VStr (ci_id a))
  /\ dict_lookup body "RepositoryFilename"
     = Some (VStr (match ci_repository_filename a with
                   | Some (String c rest) => String c rest
                   | _ => ci_id a ++ ".db"
                   end))
  /\ (nonempty (ci_labels a) = true ->
      dict_lookup body "Labels" = Some (of_labels (ci_labels a)))
  /\ (nonempty (ci_tags a) = true ->
      dict_lookup body "Tags" = Some (of_tags (ci_tags a))).
Proof.
  destruct a as [id name description repository in_memory mode lem stop minl maxl
                   labels tags].
  cbv zeta.
  destruct labels as [[|l ls]|], tags as [[|t ts]|],
    repository as [[|c rest]|];
    repeat split; try reflexivity; try discriminate.
Qed.

(** X9. The required arguments are sent as given, never replaced by a
    default: the [search] body always holds [Query] and [MaxResults] (an
    empty query and a limit of 0 included) and the [add_document] body
    always holds [Content].  The [search] filters follow the rule of the
    other bodies: [Labels] and [Tags] are present exactly when the
    argument is a non-empty collection, and then hold it. *)
Theorem required_arguments_sent_as_given
    (query content : string) (max_results : Z) (document_id : option string)
    (labels : option (list string)) (tags : option (list (string * string))) :
  let body := search_data query max_results labels tags in
  dict_lookup body "Query" = Some (VStr query)
  /\ dict_lookup body "MaxResults" = Some (VInt max_results)
  /\ dict_lookup body "Labels"
     = (if nonempty labels then Some (of_labels labels) else None)
  /\ dict_lookup body "Tags"
     = (if nonempty tags then Some (of_tags tags) else None)
  /\ distinct (dict_keys body) = true
  /\ dict_lookup (add_document_data content document_id labels tags) "Content"
     = Some (VStr content)
  /\ distinct (dict_keys (add_document_data content document_id labels tags)) = true.
Proof.
  cbv zeta.
  destruct labels as [[|l ls]|], tags as [[|t ts]|], document_id as [[|c s]|];
    repeat split; reflexivity.
Qed.

(* ================================================================== *)
(** * Further properties of the normaliser and the envelope *)

Lemma dict_set_nonempty (d : dict) (k : string) (v : value) : dict_set d k v <> [].
Proof. destruct d as [|[k' v'] rest]; simpl; [|destruct (String.eqb k' k)]; discriminate. Qed.

Lemma camel_loop_nonempty (items : list (string * value)) :
  forall acc, acc <> [] -> camel_loop items acc <> [].
Proof.
  induction items as [|[k x] rest IH]; intros acc Hacc; simpl; [exact Hacc|].
  apply IH, dict_set_nonempty.
Qed.

Lemma add_aliases_nonempty (result : dict) : result <> [] -> add_aliases result <> [].
Proof.
  intros H. unfold add_aliases.
  destruct (dict_mem result "documentId" && negb (dict_mem result "id"));
    [apply dict_set_nonempty | exact H].
Qed.

Lemma normalize_truthy (v : value) : truthy (_to_camel_case_keys v) = truthy v.
Proof.
  destruct v as [| b | z | f | s | l | d]; try reflexivity.
  - destruct l; reflexivity.
  - rewrite normalize_dict.
    destruct d as [|[k x] rest]; [reflexivity|].
    assert (H : add_aliases (camel_loop ((k, x) :: rest) []) <> []).
    { apply add_aliases_nonempty. simpl.
      apply camel_loop_nonempty. discriminate. }
    destruct (add_aliases (camel_loop ((k, x) :: rest) [])); [now elim H | reflexivity].
Qed.

(** X10. The normaliser keeps the truth value of what it is given: an
    empty list or mapping stays empty and a non-empty one stays non-empty
    (merging keys never empties a mapping), so the envelope's [data] is
    truthy exactly when the raw payload value is, and is [None] otherwise. *)
Theorem data_truthy_as_raw (v : value) (d : dict) :
  truthy (_to_camel_case_keys v) = truthy v
  /\ truthy (ApiResponse.data (ApiResponse.from_dict d))
     = truthy (truthy_lookup d "Data" "data" VNone)
  /\ (truthy (truthy_lookup d "Data" "data" VNone) = false ->
      ApiResponse.data (ApiResponse.from_dict d) = VNone).
Proof.
  split; [apply normalize_truthy|].
  unfold ApiResponse.from_dict, truthy_lookup, dict_get. simpl.
  destruct (truthy (py_or (dict_get_default d "Data" VNone)
                      (dict_get_default d "data" VNone))) eqn:E.
  - split; [|discriminate]. now rewrite normalize_truthy.
  - split; reflexivity.
Qed.

(** X11. The envelope's [data] depends on the raw payload value only
    through its normal form: two payloads whose [Data] values normalise to
    the same value give the same [data].  In particular a server may send
    the payload with capitalized or with lowercase keys, or already
    normalised, with the same result. *)
Theorem data_insensitive_to_key_case (d d' : dict) :
  _to_camel_case_keys (truthy_lookup d "Data" "data" VNone)
  = _to_camel_case_keys (truthy_lookup d' "Data" "data" VNone) ->
  ApiResponse.data (ApiResponse.from_dict d)
  = ApiResponse.data (ApiResponse.from_dict d').
Proof.
  intros H.
  assert (Ht : truthy (truthy_lookup d "Data" "data" VNone)
               = truthy (truthy_lookup d' "Data" "data" VNone)).
  { rewrite <- (normalize_truthy (truthy_lookup d "Data" "data" VNone)), H.
    apply normalize_truthy. }
  unfold ApiResponse.from_dict, truthy_lookup, dict_get in *. simpl.
  rewrite Ht, H. reflexivity.
Qed.

Lemma data_insensitive_to_key_case_witness :
  ApiResponse.data
    (ApiResponse.from_dict [("Data", VDict [("Token", VStr "abc"); ("Username", VStr "admin")])])
  = ApiResponse.data
      (ApiResponse.from_dict [("data", VDict [("token", VStr "abc"); ("username", VStr "admin")])]).
Proof.
  apply data_insensitive_to_key_case. reflexivity.
Defined.

(** X12. Whatever the input, the normaliser's output is in normal form at
    every depth: the keys of each mapping are pairwise distinct and each
    is left unchanged by the key rewrite (its first character is not an
    upper-case letter), and a mapping that has [documentId] has [id]. *)
Theorem normalize_gives_normal_form (v : value) :
  normalized (_to_camel_case_keys v)
  /\ forall out,
       _to_camel_case_keys v = VDict out ->
       distinct (dict_keys out) = true
       /\ Forall (fun kv => camel_key (fst kv) = fst kv) out
       /\ (dict_mem out "documentId" = true -> dict_mem out "id" = true).
Proof.
  split; [apply normalize_normalized|].
  intros out Hout.
  pose proof (normalize_normalized v) as Hn. rewrite Hout in Hn.
  inversion Hn as [| | | | | | d Hd Hok Hclosed]; subst.
  split; [exact Hd|]. split; [|exact Hclosed].
  clear Hd Hclosed Hn Hout.
  induction Hok as [|kv rest [Hk _] _ IH]; constructor; assumption.
Qed.

Lemma last_under_found (k : string) (items : list (string * value)) (found : option value) :
  last_under k items found
  = match last_under k items None with
    | Some v => Some v
    | None => found
    end.
Proof.
  revert found.
  induction items as [|[key val] rest IH]; intros found; simpl; [reflexivity|].
  destruct (String.eqb (camel_key key) k).
  - rewrite (IH (Some val)). now destruct (last_under k rest None).
  - apply IH.
Qed.

Lemma camel_loop_lookup (k : string) (items : list (string * value)) :
  forall acc,
    dict_lookup (camel_loop items acc) k
    = match last_under k items None with
      | Some v => Some (_to_camel_case_keys v)
      | None => dict_lookup acc k
      end.
Proof.
  induction items as [|[key val] rest IH]; intros acc; simpl; [reflexivity|].
  rewrite IH.
  destruct (String.eqb (camel_key key) k) eqn:E.
  - apply String.eqb_eq in E. subst k.
    rewrite (last_under_found (camel_key key) rest (Some val)).
    destruct (last_under (camel_key key) rest None); [reflexivity|].
    apply dict_lookup_set_same.
  - destruct (last_under k rest None); [reflexivity|].
    apply dict_lookup_set_other. intros Heq. subst k.
    now rewrite String.eqb_refl in E.
Qed.

Lemma normalize_dict_lookup (d : dict) (k : string) :
  exists out,
    _to_camel_case_keys (VDict d) = VDict out
    /\ dict_lookup out k
       = match last_under k d None with
         | Some v => Some (_to_camel_case_keys v)
         | None =>
             if String.eqb k "id" then
               match last_under "documentId" d None with
               | Some w => Some (VStr (py_str (_to_camel_case_keys w)))
               | None => None
               end
             else None
         end.
Proof.
  exists (add_aliases (camel_loop d [])). split; [apply normalize_dict|].
  unfold add_aliases, dict_mem, dict_get, dict_get_default.
  rewrite !camel_loop_lookup. simpl dict_lookup.
  destruct (last_under "documentId" d None) as [w|] eqn:Hdoc;
    destruct (last_under "id" d None) as [i|] eqn:Hid; simpl;
    try (rewrite camel_loop_lookup; simpl;
         destruct (String.eqb k "id") eqn:E;
         [apply String.eqb_eq in E; subst k; now rewrite Hid
         |now destruct (last_under k d None)]).
  destruct (String.eqb k "id") eqn:E.
  - apply String.eqb_eq in E. subst k. rewrite Hid. apply dict_lookup_set_same.
  - rewrite dict_lookup_set_other.
    + rewrite camel_loop_lookup. now destruct (last_under k d None).
    + intros Heq. subst k. discriminate.
Qed.

Lemma last_rewritten_to_found (py : builtins) (k : string)
    (items : list (string * value)) (found : option value) :
  last_rewritten_to py k items found
  = match last_rewritten_to py k items None with
    | Some v => Some v
    | None => found
    end.
Proof.
  revert found.
  induction items as [|[key val] rest IH]; intros found; simpl; [reflexivity|].
  destruct (String.eqb (camel_key_with py key) k).
  - rewrite (IH (Some val)). now destruct (last_rewritten_to py k rest None).
  - apply IH.
Qed.

Lemma camel_loop_with_lookup (py : builtins) (k : string)
    (items : list (string * value)) :
  forall acc,
    dict_lookup (camel_loop_with py items acc) k
    = match last_rewritten_to py k items None with
      | Some v => Some (_to_camel_case_keys_with py v)
      | None => dict_lookup acc k
      end.
Proof.
  induction items as [|[key val] rest IH]; intros acc; simpl; [reflexivity|].
  rewrite IH.
  destruct (String.eqb (camel_key_with py key) k) eqn:E.
  - apply String.eqb_eq in E. subst k.
    rewrite (last_rewritten_to_found py (camel_key_with py key) rest (Some val)).
    destruct (last_rewritten_to py (camel_key_with py key) rest None); [reflexivity|].
    apply dict_lookup_set_same.
  - destruct (last_rewritten_to py k rest None); [reflexivity|].
    apply dict_lookup_set_other. intros Heq. subst k.
    now rewrite String.eqb_refl in E.
Qed.

Lemma normalize_with_lookup (py : builtins) (d : dict) (k : string) :
  exists out,
    _to_camel_case_keys_with py (VDict d) = VDict out
    /\ dict_lookup out k
       = match last_rewritten_to py k d None with
         | Some v => Some (_to_camel_case_keys_with py v)
         | None =>
             if String.eqb k "id" then
               match last_rewritten_to py "documentId" d None with
               | Some w => Some (VStr (str_of py (_to_camel_case_keys_with py w)))
               | None => None
               end
             else None
         end.
Proof.
  exists (add_aliases_with py (camel_loop_with py d [])).
  split; [apply normalize_with_dict|].
  unfold add_aliases_with, dict_mem, dict_get, dict_get_default.
  rewrite !camel_loop_with_lookup. simpl dict_lookup.
  destruct (last_rewritten_to py "documentId" d None) as [w|] eqn:Hdoc;
    destruct (last_rewritten_to py "id" d None) as [i|] eqn:Hid; simpl;
    try (rewrite camel_loop_with_lookup; simpl;
         destruct (String.eqb k "id") eqn:E;
         [apply String.eqb_eq in E; subst k; now rewrite Hid
         |now destruct (last_rewritten_to py k d None)]).
  destruct (String.eqb k "id") eqn:E.
  - apply String.eqb_eq in E. subst k. rewrite Hid. apply dict_lookup_set_same.
  - rewrite dict_lookup_set_other.
    + rewrite camel_loop_with_lookup. now destruct (last_rewritten_to py k d None).
    + intros Heq. subst k. discriminate.
Qed.

(** X13. What a lookup in a normalised mapping finds.  Under a key [k] the
    output holds the normalised value of the last input entry whose
    rewritten key is [k] (when two input keys meet, the later value wins).
    When no entry is rewritten to [id] and some entry is rewritten to
    [documentId], [id] holds the string form of the normalised value of
    the last such entry.  Every other key is absent.  This holds whatever
    the interpreter's key rewrite and [str] return. *)
Theorem normalized_mapping_lookup (py : builtins) (d : dict) (k : string) :
  exists out,
    _to_camel_case_keys_with py (VDict d) = VDict out
    /\ dict_lookup out k
       = match last_rewritten_to py k d None with
         | Some v => Some (_to_camel_case_keys_with py v)
         | None =>
             if String.eqb k "id" then
               match last_rewritten_to py "documentId" d None with
               | Some w => Some (VStr (str_of py (_to_camel_case_keys_with py w)))
               | None => None
               end
             else None
         end.
Proof. apply normalize_with_lookup. Qed.

Lemma camel_loop_with_keys (py : builtins) (items : list (string * value)) :
  forall acc,
    dict_keys (camel_loop_with py items acc)
    = (dict_keys acc
       ++ first_occurrences (dict_keys acc)
            (map (camel_key_with py) (dict_keys items)))%list.
Proof.
  induction items as [|[key val] rest IH]; intros acc; simpl.
  - now rewrite app_nil_r.
  - rewrite IH.
    destruct (string_in (camel_key_with py key) (dict_keys acc)) eqn:E.
    + rewrite dict_set_keys_present; [reflexivity | now rewrite dict_mem_keys].
    + rewrite dict_set_absent by now rewrite dict_mem_keys.
      unfold dict_keys at 1 2. rewrite !map_app. simpl.
      now rewrite <- app_assoc.
Qed.

(** X14. The order of a normalised mapping.  Its keys are the rewritten
    input keys in the order of their first occurrence (an entry merged
    from several keys stays where the first of them stood), followed by
    [id] when the alias is added.  This holds whatever the interpreter's
    key rewrite returns. *)
Theorem normalized_mapping_order (py : builtins) (d : dict) :
  let keys := first_occurrences [] (map (camel_key_with py) (dict_keys d)) in
  exists out,
    _to_camel_case_keys_with py (VDict d) = VDict out
    /\ dict_keys out
       = (keys ++ (if string_in "documentId" keys && negb (string_in "id" keys)
                   then ["id"] else []))%list.
Proof.
  cbv zeta. exists (add_aliases_with py (camel_loop_with py d [])).
  split; [apply normalize_with_dict|].
  rewrite add_aliases_with_append. unfold append_alias.
  rewrite !dict_mem_keys, camel_loop_with_keys. simpl.
  destruct (string_in "documentId"
              (first_occurrences [] (map (camel_key_with py) (dict_keys d)))
            && negb (string_in "id"
                       (first_occurrences [] (map (camel_key_with py) (dict_keys d))))).
  - unfold dict_keys at 1. rewrite map_app. simpl.
    f_equal. apply (camel_loop_with_keys py d []).
  - rewrite app_nil_r. apply (camel_loop_with_keys py d []).
Qed.

(* ================================================================== *)
(** * Properties of the helpers and the domain models *)

Lemma for_each_dicts {A : Type} (f : dict -> A) (items : list value) :
  for_each (fun x => bind (as_dict x) (fun d => Returns (f d))) items
  = match dicts_of items with
    | Some ds => Returns (map f ds)
    | None => Raises RaisedAttributeError
    end.
Proof.
  induction items as [|x rest IH]; simpl; [reflexivity|].
  destruct x; simpl; try reflexivity.
  rewrite IH. now destruct (dicts_of rest).
Qed.

Lemma helper_after_operation (self : VerbexClient) (h : helper) :
  (forall e, call self (underlying h) = Raises e -> call_helper self h = Raises e)
  /\ (forall m, call_helper self h = Returns m ->
      exists response, call self (underlying h) = Returns response).
Proof.
  destruct h; cbn [underlying call call_helper];
    unfold get_indices, get_index_info, get_documents, get_document_info,
      search_documents;
    (split;
     [intros e He; now rewrite He
     |intros m Hm;
      match goal with
      | H : context [bind (bind ?op _) _] |- _ =>
          destruct op as [response | e] eqn:Hop;
          [now exists response | discriminate]
      end]).
Qed.

(** X15. A helper does nothing but build on its operation: whatever the
    operation raises (a [VerbexError] for an API or transport failure, or
    an interpreter error) the helper raises unchanged, and a helper returns
    a model only if its operation returned an envelope. *)
Theorem helper_propagates_operation_error (self : VerbexClient) (h : helper) :
  (forall e, call self (underlying h) = Raises e -> call_helper self h = Raises e)
  /\ (forall m, call_helper self h = Returns m ->
      exists response, call self (underlying h) = Returns response).
Proof. apply helper_after_operation. Qed.

Lemma helper_propagates_operation_error_witness :
  call_helper
    (client_answering "http://localhost:8080/" "verbexadmin"
       (Responds (json_response 404 (VDict not_found_payload))))
    (H_get_index_info "non-existent-index-12345")
  = Raises (RaisedVerbexError (api_error (ApiResponse.from_dict not_found_payload))).
Proof.
  apply (proj1 (helper_propagates_operation_error
                  (client_answering "http://localhost:8080/" "verbexadmin"
                     (Responds (json_response 404 (VDict not_found_payload))))
                  (H_get_index_info "non-existent-index-12345"))).
  reflexivity.
Defined.

Lemma models_under_listed {A : Type} (from_dict : dict -> A) (key : string)
    (response : ApiResponse.t) (dd : dict) (items : list value) :
  ApiResponse.data response = VDict dd ->
  dict_lookup dd key = Some (VList items) ->
  models_under from_dict key response
  = match dicts_of items with
    | Some ds => Returns (map from_dict ds)
    | None => Raises RaisedAttributeError
    end.
Proof.
  intros Hdata Hkey. unfold models_under. rewrite Hdata.
  destruct dd as [|kv rest]; [discriminate|].
  cbn [truthy py_contains py_getitem bind].
  unfold dict_mem, dict_get, dict_get_default. rewrite Hkey.
  cbn [bind py_iter]. apply for_each_dicts.
Qed.

(** X16. When the envelope's [data] is a mapping that lists the models
    under [indices] (for [get_indices]) or [documents] (for
    [get_documents]) as a list, the helper returns one model per item, in
    the order of the list, each built from the item by the model's
    [from_dict]; if some item of the list is not a mapping the helper
    raises [AttributeError] and returns nothing. *)
Theorem listing_helpers_map_items
    (self : VerbexClient) (index_id : string) (response : ApiResponse.t)
    (dd : dict) (items : list value) :
  ApiResponse.data response = VDict dd ->
  (list_indices self = Returns response ->
   dict_lookup dd "indices" = Some (VList items) ->
   get_indices self
   = match dicts_of items with
     | Some ds => Returns (map IndexInfo.from_dict ds)
     | None => Raises RaisedAttributeError
     end)
  /\ (list_documents self index_id = Returns response ->
      dict_lookup dd "documents" = Some (VList items) ->
      get_documents self index_id
      = match dicts_of items with
        | Some ds => Returns (map DocumentInfo.from_dict ds)
        | None => Raises RaisedAttributeError
        end).
Proof.
  intros Hdata. split; intros Hop Hkey.
  - unfold get_indices. rewrite Hop. cbn [bind].
    now apply models_under_listed with (dd := dd).
  - unfold get_documents. rewrite Hop. cbn [bind].
    now apply models_under_listed with (dd := dd).
Qed.

Lemma listing_helpers_map_items_witness :
  exists first second,
    get_indices (client_answering "http://localhost:8080" "verbexadmin"
                   (Responds (json_response 200 (VDict indices_payload))))
    = Returns [first; second]
    /\ IndexInfo.id first = VStr "idx1"
    /\ IndexInfo.name first = VStr "One"
    /\ IndexInfo.id second = VStr "idx2"
    /\ IndexInfo.name second = VNone.
Proof.
  eexists. eexists. split.
  - apply (proj1 (listing_helpers_map_items
                    (client_answering "http://localhost:8080" "verbexadmin"
                       (Responds (json_response 200 (VDict indices_payload))))
                    "" (ApiResponse.from_dict indices_payload)
                    [("indices", VList [VDict [("id", VStr "idx1"); ("name", VStr "One")];
                                        VDict [("id", VStr "idx2")]]);
                     ("count", VInt 2)]
                    [VDict [("id", VStr "idx1"); ("name", VStr "One")];
                     VDict [("id", VStr "idx2")]]
                    eq_refl));
      reflexivity.
  - repeat split.
Defined.

Lemma handle_payload_returned (d : dict) :
  truthy (ApiResponse.success (ApiResponse.from_dict d)) = true
  \/ ge_400 (ApiResponse.status_code (ApiResponse.from_dict d)) = Some false ->
  handle_payload (VDict d) = Returns (ApiResponse.from_dict d).
Proof.
  rewrite handle_payload_dict. cbv zeta.
  intros [H | H]; rewrite H; [reflexivity|].
  now destruct (truthy (ApiResponse.success (ApiResponse.from_dict d))).
Qed.

(** X17. When the server's answer is returned as an envelope and its
    payload holds no truthy [Data] (absent, null, or an empty mapping or
    list), the helpers give an empty result instead of failing:
    [get_indices] and [get_documents] return the empty list, and
    [get_index_info], [get_document_info] and [search_documents] return
    [None]. *)
Theorem helpers_on_missing_data
    (self : VerbexClient) (r : Response) (d : dict)
    (index_id document_id query : string) (max_results : Z)
    (labels : option (list string)) (tags : option (list (string * string))) :
  (forall req, _session self req = Responds r) ->
  response_data r = VDict d ->
  truthy (ApiResponse.success (ApiResponse.from_dict d)) = true
  \/ ge_400 (ApiResponse.status_code (ApiResponse.from_dict d)) = Some false ->
  truthy (truthy_lookup d "Data" "data" VNone) = false ->
  get_indices self = Returns []
  /\ get_documents self index_id = Returns []
  /\ get_index_info self index_id = Returns None
  /\ get_document_info self index_id document_id = Returns None
  /\ search_documents self index_id query max_results labels tags = Returns None.
Proof.
  intros Hsession Hd Hreturned Hdata.
  assert (Hcall : forall op, call self op = Returns (ApiResponse.from_dict d)).
  { intros op. rewrite (call_answered self op r Hsession), Hd.
    now apply handle_payload_returned. }
  assert (Hnone : ApiResponse.data (ApiResponse.from_dict d) = VNone).
  { unfold ApiResponse.from_dict, truthy_lookup, dict_get in *. simpl.
    now rewrite Hdata. }
  pose proof (Hcall Op_list_indices) as H1.
  pose proof (Hcall (Op_list_documents index_id)) as H2.
  pose proof (Hcall (Op_get_index index_id)) as H3.
  pose proof (Hcall (Op_get_document index_id document_id)) as H4.
  pose proof (Hcall (Op_search index_id query max_results labels tags)) as H5.
  cbn [call] in H1, H2, H3, H4, H5.
  unfold get_indices, get_documents, get_index_info, get_document_info,
    search_documents, models_under.
  rewrite H1, H2, H3, H4, H5. cbn [bind]. rewrite Hnone.
  repeat split.
Qed.

Lemma helpers_on_missing_data_witness :
  get_indices (client_answering "http://localhost:8080" "verbexadmin"
                 (Responds (json_response 200 (VDict empty_data_payload))))
  = Returns []
  /\ get_index_info (client_answering "http://localhost:8080" "verbexadmin"
                       (Responds (json_response 200 (VDict empty_data_payload))))
       "idx1"
     = Returns None.
Proof.
  destruct (helpers_on_missing_data
              (client_answering "http://localhost:8080" "verbexadmin"
                 (Responds (json_response 200 (VDict empty_data_payload))))
              (json_response 200 (VDict empty_data_payload)) empty_data_payload
              "idx1" "" "" 100 None None
              (fun _ => eq_refl) eq_refl (or_introl eq_refl) eq_refl)
    as [H1 [_ [H3 _]]].
  split; [exact H1 | exact H3].
Defined.

(** X18. The identifier of a model built from a normalised payload.  With
    [out] the normalised form of a mapping [d]: the [id] of an [IndexInfo]
    or a [DocumentInfo] built from [out] is the normalised value of the
    last entry of [d] whose key is rewritten to [id]; if there is none it
    is the string form of the normalised value of the last entry rewritten
    to [documentId]; and if that is missing too it is the empty string.
    The [document_id] of a [SearchResult] is the normalised value under
    [documentId] as it is (not its string form), or the empty string.
    This holds whatever the interpreter's key rewrite and [str] return. *)
Theorem model_identifier (py : builtins) (d : dict) :
  exists out,
    _to_camel_case_keys_with py (VDict d) = VDict out
    /\ IndexInfo.id (IndexInfo.from_dict out)
       = match last_rewritten_to py "id" d None,
               last_rewritten_to py "documentId" d None with
         | Some v, _ => _to_camel_case_keys_with py v
         | None, Some w => VStr (str_of py (_to_camel_case_keys_with py w))
         | None, None => VStr ""
         end
    /\ DocumentInfo.id (DocumentInfo.from_dict out)
       = IndexInfo.id (IndexInfo.from_dict out)
    /\ SearchResult.document_id (SearchResult.from_dict out)
       = match last_rewritten_to py "documentId" d None with
         | Some w => _to_camel_case_keys_with py w
         | None => VStr ""
         end.
Proof.
  destruct (normalize_with_lookup py d "id") as [out [Hout Hid]].
  destruct (normalize_with_lookup py d "documentId") as [out' [Hout' Hdoc]].
  rewrite Hout in Hout'. inversion Hout'; subst out'. clear Hout'.
  exists out. split; [exact Hout|].
  unfold IndexInfo.from_dict, DocumentInfo.from_dict, SearchResult.from_dict,
    dict_get_default. simpl.
  rewrite Hid, Hdoc. simpl.
  split; [|split; [reflexivity|]].
  - destruct (last_rewritten_to py "id" d None); [reflexivity|].
    now destruct (last_rewritten_to py "documentId" d None).
  - now destruct (last_rewritten_to py "documentId" d None).
Qed.

(** X19. [SearchResponse.from_dict] on a mapping whose [results] is a list
    (or is missing, which counts as the empty list) returns a response
    with one [SearchResult] per item in order, [query] defaulting to the
    empty string, [total_count] to 0 and [max_results] to 100; it raises
    [AttributeError] if an item is not a mapping or the argument itself is
    not a mapping, and [TypeError] if [results] is present but null. *)
Theorem search_response_from_dict (d : dict) (items : list value) (v : value) :
  (dict_get_default d "results" (VList []) = VList items ->
   SearchResponse.from_dict (VDict d)
   = match dicts_of items with
     | Some ds =>
         Returns {| SearchResponse.query := dict_get_default d "query" (VStr "");
                    SearchResponse.results := map SearchResult.from_dict ds;
                    SearchResponse.total_count := dict_get_default d "totalCount" (VInt 0);
                    SearchResponse.max_results := dict_get_default d "maxResults" (VInt 100) |}
     | None => Raises RaisedAttributeError
     end)
  /\ (dict_lookup d "results" = Some VNone ->
      SearchResponse.from_dict (VDict d) = Raises RaisedTypeError)
  /\ ((forall d', v <> VDict d') ->
      SearchResponse.from_dict v = Raises RaisedAttributeError)
  /\ SearchResponse.from_dict (VDict [])
     = Returns {| SearchResponse.query := VStr "";
                  SearchResponse.results := [];
                  SearchResponse.total_count := VInt 0;
                  SearchResponse.max_results := VInt 100 |}.
Proof.
  split; [|split; [|split]].
  - intros Hresults. unfold SearchResponse.from_dict. cbn [as_dict bind].
    rewrite Hresults. cbn [py_iter bind].
    rewrite (for_each_dicts SearchResult.from_dict).
    now destruct (dicts_of items).
  - intros Hnull. unfold SearchResponse.from_dict, dict_get_default.
    cbn [as_dict bind]. now rewrite Hnull.
  - intros Hv. destruct v; try reflexivity. now elim (Hv entries).
  - reflexivity.
Qed.

Lemma search_response_from_dict_witness :
  exists response,
    SearchResponse.from_dict
      (VDict [("query", VStr "fox");
              ("results", VList [VDict [("documentId", VStr "d1"); ("score", VInt 2)]]);
              ("totalCount", VInt 1)])
    = Returns response
    /\ List.length (SearchResponse.results response) = 1%nat
    /\ SearchResponse.max_results response = VInt 100.
Proof.
  eexists. split.
  - apply (proj1 (search_response_from_dict
                    [("query", VStr "fox");
                     ("results", VList [VDict [("documentId", VStr "d1"); ("score", VInt 2)]]);
                     ("totalCount", VInt 1)]
                    [VDict [("documentId", VStr "d1"); ("score", VInt 2)]] VNone)).
    reflexivity.
  - split; reflexivity.
Defined.

(* ================================================================== *)
(** * Properties of the scenario bodies *)

Lemma py_eq_code_ge_400 (v : value) (code : Z) :
  py_eq v (VInt code) = true -> 400 <= code -> ge_400 v = Some true.
Proof.
  intros Heq Hcode.
  destruct v as [| b | z | f | s | l | d]; simpl in Heq; try discriminate.
  - unfold Qeq_bool in Heq. simpl in Heq. apply Z.eqb_eq in Heq.
    destruct b; simpl in Heq; lia.
  - unfold Qeq_bool in Heq. simpl in Heq. apply Z.eqb_eq in Heq.
    simpl. f_equal. apply Z.leb_le. lia.
  - simpl. f_equal. unfold float_ge_400.
    destruct (fl_class f) as [| negative | q]; simpl in Heq; try discriminate.
    unfold Qeq_bool in Heq. unfold Qle_bool. simpl in *.
    apply Z.eqb_eq in Heq. apply Z.leb_le. nia.
Qed.

Lemma truthy_is_not_none (v : value) : truthy v = true -> is_not_none v = true.
Proof. destruct v; simpl; intros H; [discriminate | reflexivity..]. Qed.

Lemma expect_error_on_payload (d : dict) (code : Z) (otherwise : string)
    (handler_rest : VerbexError.t -> test_end) :
  400 <= code ->
  handler_rest (api_error (ApiResponse.from_dict d)) = Passes ->
  (expect_error (handle_payload (VDict d)) code otherwise handler_rest = Passes
   <-> truthy (ApiResponse.success (ApiResponse.from_dict d)) = false
       /\ py_eq (ApiResponse.status_code (ApiResponse.from_dict d)) (VInt code) = true).
Proof.
  intros Hcode Hrest.
  rewrite handle_payload_dict. cbv zeta.
  set (env := ApiResponse.from_dict d) in *.
  assert (Herr : expect_error (Raises (RaisedVerbexError (api_error env))) code otherwise
                   handler_rest
                 = if py_eq (ApiResponse.status_code env) (VInt code)
                   then Passes
                   else FailsAssertion
                          ("error.status_code" ++ " expected '" ++ py_str (VInt code)
                           ++ "', got '" ++ py_str (ApiResponse.status_code env) ++ "'")).
  { unfold expect_error, _assert_equals, _assert, api_error at 1.
    cbn [VerbexError.status_code].
    destruct (py_eq (ApiResponse.status_code env) (VInt code));
      [exact Hrest | reflexivity]. }
  destruct (truthy (ApiResponse.success env)) eqn:Hs.
  - split; [discriminate | intros [H _]; discriminate].
  - destruct (py_eq (ApiResponse.status_code env) (VInt code)) eqn:Heq.
    + rewrite (py_eq_code_ge_400 _ code Heq Hcode), Herr.
      split; [now split | reflexivity].
    + split; [|intros [_ H]; discriminate].
      destruct (ge_400 (ApiResponse.status_code env)) as [[|]|];
        [rewrite Herr | |]; discriminate.
Qed.

(** X20. The scenarios that expect a rejection pass exactly when the
    client raises it: for a server that answers with a mapping, each of
    them passes if and only if the envelope has a falsy [success] and a
    [statusCode] equal to the expected code (401 for the two
    authentication scenarios, 409 for the duplicate index, 404 for the
    three not-found scenarios).  An envelope that is returned, even an
    unsuccessful one, fails the scenario. *)
Theorem rejection_scenarios_pass_iff
    (self : VerbexClient) (r : Response) (d : dict) (endpoint test_index_id : string) :
  (forall req, _session self req = Responds r) ->
  response_data r = VDict d ->
  let rejected code :=
    truthy (ApiResponse.success (ApiResponse.from_dict d)) = false
    /\ py_eq (ApiResponse.status_code (ApiResponse.from_dict d)) (VInt code) = true in
  (Scenario.test_login_invalid_credentials self = Passes <-> rejected 401)
  /\ (Scenario.test_validate_invalid_token endpoint (_session self) = Passes
      <-> rejected 401)
  /\ (Scenario.test_create_duplicate_index self test_index_id = Passes <-> rejected 409)
  /\ (Scenario.test_get_index_not_found self = Passes <-> rejected 404)
  /\ (Scenario.test_delete_index_not_found self = Passes <-> rejected 404)
  /\ (Scenario.test_verify_index_deleted self test_index_id = Passes <-> rejected 404).
Proof.
  intros Hsession Hd. cbv zeta.
  assert (Hcall : forall op, call self op = handle_payload (VDict d)).
  { intros op. now rewrite (call_answered self op r Hsession), Hd. }
  assert (Hinvalid :
            validate_token (VerbexClient_init endpoint "invalid-token" (_session self))
            = handle_payload (VDict d)).
  { change (call (VerbexClient_init endpoint "invalid-token" (_session self))
              Op_validate_token = handle_payload (VDict d)).
    rewrite (call_answered _ Op_validate_token r); [now rewrite Hd|].
    intros req. apply Hsession. }
  pose proof (Hcall (Op_login "invalid" "invalid")) as H1.
  pose proof (Hcall (Op_create_index
                       (mkCreateIndexArgs test_index_id (Some "Duplicate") None None
                          false "MemoryOnly" false false 0 0 None None))) as H3.
  pose proof (Hcall (Op_get_index "non-existent-index-12345")) as H4.
  pose proof (Hcall (Op_delete_index "non-existent-index-67890")) as H5.
  pose proof (Hcall (Op_get_index test_index_id)) as H6.
  cbn [call] in H1, H3, H4, H5, H6.
  unfold Scenario.test_login_invalid_credentials, Scenario.test_validate_invalid_token,
    Scenario.test_create_duplicate_index, Scenario.test_get_index_not_found,
    Scenario.test_delete_index_not_found, Scenario.test_verify_index_deleted.
  cbv zeta. rewrite H1, Hinvalid, H3, H4, H5, H6.
  split; [|split; [|split; [|split; [|split]]]];
    (apply expect_error_on_payload; [lia|]); try reflexivity.
  unfold _assert_not_none, _assert.
  now rewrite (truthy_is_not_none _ (api_error_message_truthy _)).
Qed.

Lemma rejection_scenarios_pass_iff_witness :
  Scenario.test_get_index_not_found
    (client_answering "http://localhost:8080" "verbexadmin"
       (Responds (json_response 404 (VDict not_found_payload))))
  = Passes
  /\ Scenario.test_create_duplicate_index
       (client_answering "http://localhost:8080" "verbexadmin"
          (Responds (json_response 404 (VDict not_found_payload))))
       "test-index-1"
     <> Passes.
Proof.
  destruct (rejection_scenarios_pass_iff
              (client_answering "http://localhost:8080" "verbexadmin"
                 (Responds (json_response 404 (VDict not_found_payload))))
              (json_response 404 (VDict not_found_payload)) not_found_payload
              "http://localhost:8080" "test-index-1" (fun _ => eq_refl) eq_refl)
    as [_ [_ [Hdup [Hfound _]]]].
  split.
  - apply Hfound. split; reflexivity.
  - intros H. apply Hdup in H. destruct H as [_ H]. discriminate.
Defined.

(** X21. When the server cannot be reached (the transport raises on every
    request), no scenario passes, and the two kinds of scenario fail
    differently: a scenario that expects a rejection catches the
    [VerbexError] and fails its own assertion on the status code, with the
    text "error.status_code expected '404', got '0'" (or 401, 409); a
    scenario that expects an answer lets the [VerbexError] through. *)
Theorem scenarios_when_unreachable
    (self : VerbexClient) (text endpoint test_index_id : string) :
  (forall req, _session self req = RequestException text) ->
  let got code :=
    FailsAssertion ("error.status_code expected '" ++ int_str code ++ "', got '0'") in
  Scenario.test_login_invalid_credentials self = got 401
  /\ Scenario.test_validate_invalid_token endpoint (_session self) = got 401
  /\ Scenario.test_create_duplicate_index self test_index_id = got 409
  /\ Scenario.test_get_index_not_found self = got 404
  /\ Scenario.test_delete_index_not_found self = got 404
  /\ Scenario.test_verify_index_deleted self test_index_id = got 404
  /\ Scenario.test_root_health_check self = Propagates (transport_error text)
  /\ Scenario.test_health_endpoint self = Propagates (transport_error text)
  /\ Scenario.test_validate_token self = Propagates (transport_error text)
  /\ Scenario.test_delete_index self test_index_id = Propagates (transport_error text).
Proof.
  intros Hsession. cbv zeta.
  assert (Hcall : forall op, call self op = Raises (transport_error text)).
  { intros op. now rewrite call_request, Hsession. }
  assert (Hinvalid :
            validate_token (VerbexClient_init endpoint "invalid-token" (_session self))
            = Raises (transport_error text)).
  { change (call (VerbexClient_init endpoint "invalid-token" (_session self))
              Op_validate_token = Raises (transport_error text)).
    rewrite call_request. simpl _session. now rewrite Hsession. }
  pose proof (Hcall (Op_login "invalid" "invalid")) as H1.
  pose proof (Hcall (Op_create_index
                       (mkCreateIndexArgs test_index_id (Some "Duplicate") None None
                          false "MemoryOnly" false false 0 0 None None))) as H3.
  pose proof (Hcall (Op_get_index "non-existent-index-12345")) as H4.
  pose proof (Hcall (Op_delete_index "non-existent-index-67890")) as H5.
  pose proof (Hcall (Op_get_index test_index_id)) as H6.
  pose proof (Hcall Op_root_health_check) as H7.
  pose proof (Hcall Op_health_check) as H8.
  pose proof (Hcall Op_validate_token) as H9.
  pose proof (Hcall (Op_delete_index test_index_id)) as H10.
  cbn [call] in H1, H3, H4, H5, H6, H7, H8, H9, H10.
  unfold Scenario.test_login_invalid_credentials, Scenario.test_validate_invalid_token,
    Scenario.test_create_duplicate_index, Scenario.test_get_index_not_found,
    Scenario.test_delete_index_not_found, Scenario.test_verify_index_deleted,
    Scenario.test_root_health_check, Scenario.test_health_endpoint,
    Scenario.test_validate_token, Scenario.test_delete_index.
  cbv zeta. rewrite H1, Hinvalid, H3, H4, H5, H6, H7, H8, H9, H10.
  repeat split.
Qed.

Lemma scenarios_when_unreachable_witness :
  Scenario.test_get_index_not_found
    (client_answering "http://localhost:8080" "verbexadmin"
       (RequestException "Connection refused"))
  = FailsAssertion "error.status_code expected '404', got '0'".
Proof.
  destruct (scenarios_when_unreachable
              (client_answering "http://localhost:8080" "verbexadmin"
                 (RequestException "Connection refused"))
              "Connection refused" "http://localhost:8080" "test-index-1"
              (fun _ => eq_refl))
    as [_ [_ [_ [H _]]]].
  exact H.
Defined.

Lemma health_assertions_pass_iff (response : ApiResponse.t) :
  health_assertions response = Passes
  <-> ApiResponse.success response = VBool true
      /\ py_eq (ApiResponse.status_code response) (VInt 200) = true
      /\ exists dd,
           ApiResponse.data response = VDict dd
           /\ py_eq (dict_get dd "status") (VStr "Healthy") = true
           /\ dict_get dd "version" <> VNone
           /\ dict_get dd "timestamp" <> VNone.
Proof.
  unfold health_assertions, _assert_true, _assert_equals, _assert_not_none, _assert,
    data_get.
  split.
  - destruct (ApiResponse.success response) as [| [|] | | | | |]; simpl;
      try discriminate.
    destruct (py_eq (ApiResponse.status_code response) (VInt 200)); simpl;
      [|discriminate].
    destruct (ApiResponse.data response) as [| | | | | | dd]; simpl; try discriminate.
    destruct (py_eq (dict_get dd "status") (VStr "Healthy")) eqn:Hst; simpl;
      [|discriminate].
    destruct (dict_get dd "version") eqn:Hv; simpl; try discriminate;
      destruct (dict_get dd "timestamp") eqn:Ht; simpl; try discriminate;
      intros _; (split; [reflexivity|]); (split; [reflexivity|]);
      exists dd; rewrite ?Hv, ?Ht, ?Hst; repeat split; try reflexivity; discriminate.
  - intros [Hs [Hc [dd [Hdata [Hst [Hv Ht]]]]]].
    rewrite Hs, Hc, Hdata. simpl. rewrite Hst. simpl.
    destruct (dict_get dd "version"); [now elim Hv | simpl..];
      (destruct (dict_get dd "timestamp"); [now elim Ht | reflexivity..]).
Qed.

(** X22. What the health scenarios demand of the envelope.  Each passes
    if and only if the operation returns an envelope whose [success] is the
    boolean true itself (a merely truthy value such as 1 is returned by
    the client but fails the scenario), whose [statusCode] equals 200,
    and whose [data] is a mapping with [status] equal to "Healthy" and a
    [version] and a [timestamp] that are not [None]. *)
Theorem health_scenarios_pass_iff (self : VerbexClient) :
  let healthy response :=
    ApiResponse.success response = VBool true
    /\ py_eq (ApiResponse.status_code response) (VInt 200) = true
    /\ exists dd,
         ApiResponse.data response = VDict dd
         /\ py_eq (dict_get dd "status") (VStr "Healthy") = true
         /\ dict_get dd "version" <> VNone
         /\ dict_get dd "timestamp" <> VNone in
  (Scenario.test_root_health_check self = Passes
   <-> exists response, root_health_check self = Returns response /\ healthy response)
  /\ (Scenario.test_health_endpoint self = Passes
      <-> exists response, health_check self = Returns response /\ healthy response).
Proof.
  cbv zeta.
  unfold Scenario.test_root_health_check, Scenario.test_health_endpoint, on_value.
  split.
  - destruct (root_health_check self) as [response | e].
    + rewrite health_assertions_pass_iff. split.
      * intros H. now exists response.
      * intros [response' [Heq H]]. now inversion Heq; subst.
    + split; [discriminate | intros [response' [Heq _]]; discriminate].
  - destruct (health_check self) as [response | e].
    + rewrite health_assertions_pass_iff. split.
      * intros H. now exists response.
      * intros [response' [Heq H]]. now inversion Heq; subst.
    + split; [discriminate | intros [response' [Heq _]]; discriminate].
Qed.

Lemma normalize_none_only (v : value) : _to_camel_case_keys v = VNone -> v = VNone.
Proof. destruct v; simpl; intros H; try discriminate; reflexivity. Qed.

(** X23. The health scenarios accept the server's answer in either key
    casing.  If the payload says success (true), status 200, and its data
    is a mapping that gives "Healthy" under [Status] or [status], and
    values other than null under [Version] or [version] and under
    [Timestamp] or [timestamp], then both health scenarios pass: the
    assertions read the lowercase keys the normaliser produces. *)
Theorem health_scenarios_accept_either_casing
    (self : VerbexClient) (r : Response) (d raw : dict) (version timestamp : value) :
  (forall req, _session self req = Responds r) ->
  response_data r = VDict d ->
  truthy_lookup d "Success" "success" (VBool false) = VBool true ->
  truthy_lookup d "StatusCode" "statusCode" (VInt 0) = VInt 200 ->
  truthy_lookup d "Data" "data" VNone = VDict raw ->
  last_under "status" raw None = Some (VStr "Healthy") ->
  last_under "version" raw None = Some version -> version <> VNone ->
  last_under "timestamp" raw None = Some timestamp -> timestamp <> VNone ->
  Scenario.test_root_health_check self = Passes
  /\ Scenario.test_health_endpoint self = Passes.
Proof.
  intros Hsession Hd Hsuccess Hstatus Hdata Hst Hver Hvnone Hts Htnone.
  set (env := ApiResponse.from_dict d).
  assert (Hs : ApiResponse.success env = VBool true) by exact Hsuccess.
  assert (Hc : ApiResponse.status_code env = VInt 200) by exact Hstatus.
  assert (Hcall : forall op, call self op = Returns env).
  { intros op. rewrite (call_answered self op r Hsession), Hd.
    apply handle_payload_returned. left. fold env. now rewrite Hs. }
  assert (Hraw : raw <> []) by (intros ->; discriminate).
  destruct (normalize_dict_lookup raw "status") as [out [Hout Hlst]].
  destruct (normalize_dict_lookup raw "version") as [out1 [Hout1 Hlver]].
  destruct (normalize_dict_lookup raw "timestamp") as [out2 [Hout2 Hlts]].
  rewrite Hout in Hout1, Hout2.
  inversion Hout1; subst out1. inversion Hout2; subst out2. clear Hout1 Hout2.
  rewrite Hst in Hlst. rewrite Hver in Hlver. rewrite Hts in Hlts.
  assert (Henv : ApiResponse.data env = VDict out).
  { unfold env, ApiResponse.from_dict, truthy_lookup, dict_get in *. simpl.
    rewrite Hdata. destruct raw; [now elim Hraw|]. simpl truthy. cbv iota.
    exact Hout. }
  assert (Hhealthy : health_assertions env = Passes).
  { apply health_assertions_pass_iff.
    split; [exact Hs|]. split; [now rewrite Hc|].
    exists out. unfold dict_get, dict_get_default.
    rewrite Hlst, Hlver, Hlts.
    split; [exact Henv|]. split; [reflexivity|].
    split; intros H; apply normalize_none_only in H; contradiction. }
  pose proof (Hcall Op_root_health_check) as H1.
  pose proof (Hcall Op_health_check) as H2.
  cbn [call] in H1, H2.
  unfold Scenario.test_root_health_check, Scenario.test_health_endpoint.
  rewrite H1, H2. simpl. split; exact Hhealthy.
Qed.

Lemma health_scenarios_accept_either_casing_witness :
  Scenario.test_root_health_check
    (client_answering "http://localhost:8080" "verbexadmin"
       (Responds (json_response 200 (VDict health_payload))))
  = Passes.
Proof.
  apply (proj1 (health_scenarios_accept_either_casing
                  (client_answering "http://localhost:8080" "verbexadmin"
                     (Responds (json_response 200 (VDict health_payload))))
                  (json_response 200 (VDict health_payload)) health_payload
                  [("Status", VStr "Healthy"); ("Version", VStr "1.0.0");
                   ("Timestamp", VStr "2025-01-01T00:00:00Z")]
                  (VStr "1.0.0") (VStr "2025-01-01T00:00:00Z")
                  (fun _ => eq_refl) eq_refl eq_refl eq_refl eq_refl eq_refl
                  eq_refl ltac:(discriminate) eq_refl ltac:(discriminate))).
Defined.
